(** * DDB-System: the command-dispatch and node-health logic of GUI/gui.py

    A shallow embedding of [DatabaseGUI] (GUI/gui.py): the operation list
    built by [__init__], the field layout of [update_fields], the request
    construction, network round trip and response handling of
    [_execute_operation], and the polling loop of [check_node_status].

    Python [str] values are modelled as Rocq strings holding the UTF-8
    encoding of the text.  The characters the code tests (JSON
    punctuation, the colon of an address, the prefix "Error") are ASCII,
    so these tests are the same tests on the bytes; [int], which also
    reads the digits and spaces of Unicode, reads the code points back
    from the encoding.  The limits that the interpreter sets on the
    library calls of the code (CPython 3.11: the recursion limit, the
    limit of digits of an integer) are part of the model. *)

From Stdlib Require Import ZArith NArith List String Ascii Bool Lia.
From stdpp Require Import base option strings gmap list.
Import ListNotations.

Local Open Scope string_scope.

(** ** The JSON decoder used by the program: [json.loads]

    [json.loads] belongs to the Python standard library (CPython 3.11,
    with its C scanner).  It is modelled in two total passes over the
    text: a character-level scanner that produces tokens, and a stack
    automaton over the tokens, which meets the failures in the order of
    the text.  A literal with a fraction or an exponent, and the
    constants NaN, Infinity and -Infinity, denote floats and are kept as
    their lexeme. *)
Module Json.

#[local] Set Warnings "-register-all".

Inductive json : Type :=
| JNull
| JBool (b : bool)
| JInt (n : Z)
| JFloat (lexeme : string)
| JString (s : string)
| JArray (items : list json)
| JObject (members : list (string * json)).

(** The empty mapping [{}]. *)
Definition empty_object : json := JObject [].

Definition is_object (v : json) : bool :=
  match v with JObject _ => true | _ => false end.

(** How many containers are nested in a value: none in a scalar, and in
    an array or an object one more than in its deepest element. *)
Fixpoint depth (v : json) : nat :=
  match v with
  | JArray items =>
    S ((fix deepest (l : list json) : nat :=
          match l with
          | [] => 0
          | x :: rest => Nat.max (depth x) (deepest rest)
          end) items)
  | JObject members =>
    S ((fix deepest (l : list (string * json)) : nat :=
          match l with
          | [] => 0
          | (_, x) :: rest => Nat.max (depth x) (deepest rest)
          end) members)
  | _ => 0
  end.

(** *** Characters *)

Definition code (c : ascii) : N := N_of_ascii c.

Definition in_range (lo hi : N) (c : ascii) : bool :=
  ((lo <=? code c) && (code c <=? hi))%N.

Definition is_digit (c : ascii) : bool := in_range 48 57 c.

Definition is_alpha (c : ascii) : bool :=
  in_range 65 90 c || in_range 97 122 c.

(** The decoder's whitespace: space, tab, line feed, carriage return. *)
Definition is_ws (c : ascii) : bool :=
  (code c =? 32)%N || (code c =? 9)%N || (code c =? 10)%N || (code c =? 13)%N.

(** Characters that can occur in a number or in one of the constants. *)
Definition is_bare (c : ascii) : bool :=
  is_digit c || is_alpha c || (code c =? 43)%N || (code c =? 45)%N
  || (code c =? 46)%N.

Definition hex_value (c : ascii) : option N :=
  if is_digit c then Some (code c - 48)%N
  else if in_range 97 102 c then Some (code c - 87)%N
  else if in_range 65 70 c then Some (code c - 55)%N
  else None.

Definition hex4 (a b c d : ascii) : option N :=
  x ← hex_value a; y ← hex_value b; z ← hex_value c; w ← hex_value d;
  Some (((x * 16 + y) * 16 + z) * 16 + w)%N.

Definition chr (n : N) : ascii := ascii_of_N n.

(** The UTF-8 encoding of a code point (a lone surrogate is encoded like
    any other code point of its range). *)
Definition utf8 (cp : N) : string :=
  (if cp <? 128 then String (chr cp) ""
   else if cp <? 2048 then
     String (chr (192 + cp / 64)) (String (chr (128 + cp mod 64)) "")
   else if cp <? 65536 then
     String (chr (224 + cp / 4096))
       (String (chr (128 + (cp / 64) mod 64))
          (String (chr (128 + cp mod 64)) ""))
   else
     String (chr (240 + cp / 262144))
       (String (chr (128 + (cp / 4096) mod 64))
          (String (chr (128 + (cp / 64) mod 64))
             (String (chr (128 + cp mod 64)) ""))))%N.

Definition is_high_surrogate (cp : N) : bool := ((55296 <=? cp) && (cp <=? 56319))%N.
Definition is_low_surrogate (cp : N) : bool := ((56320 <=? cp) && (cp <=? 57343))%N.

Definition join_surrogates (hi lo : N) : N :=
  (65536 + ((hi - 55296) * 1024 + (lo - 56320)))%N.

(** *** String bodies

    [unescape] decodes the text between the quotes of a string literal:
    escapes are replaced, a raw control character is refused. *)
Definition simple_escape (c : ascii) : option ascii :=
  let n := code c in
  (if n =? 34 then Some c               (* quote *)
   else if n =? 92 then Some c          (* backslash *)
   else if n =? 47 then Some c          (* slash *)
   else if n =? 98 then Some (chr 8)    (* b: backspace *)
   else if n =? 102 then Some (chr 12)  (* f: form feed *)
   else if n =? 110 then Some (chr 10)  (* n: line feed *)
   else if n =? 114 then Some (chr 13)  (* r: carriage return *)
   else if n =? 116 then Some (chr 9)   (* t: tab *)
   else None)%N.

Fixpoint unescape (s : string) : option string :=
  match s with
  | EmptyString => Some EmptyString
  | String c rest =>
    if (code c =? 92)%N then
      match rest with
      | EmptyString => None
      | String e rest1 =>
        if (code e =? 117)%N then
          match rest1 with
          | String h1 (String h2 (String h3 (String h4 rest2))) =>
            cp ← hex4 h1 h2 h3 h4;
            let alone := tl ← unescape rest2; Some (utf8 cp +:+ tl) in
            if is_high_surrogate cp then
              match rest2 with
              | String b (String u (String l1 (String l2 (String l3 (String l4 rest3))))) =>
                if ((code b =? 92) && (code u =? 117))%N then
                  match hex4 l1 l2 l3 l4 with
                  | Some lo =>
                    if is_low_surrogate lo then
                      tl ← unescape rest3;
                      Some (utf8 (join_surrogates cp lo) +:+ tl)
                    else alone
                  | None => None
                  end
                else alone
              | _ => alone
              end
            else alone
          | _ => None
          end
        else
          d ← simple_escape e; tl ← unescape rest1; Some (String d tl)
      end
    else if (code c <? 32)%N then None
    else tl ← unescape rest; Some (String c tl)
  end.

(** *** Numbers and constants *)

Fixpoint span_digits (s : string) : string * string :=
  match s with
  | EmptyString => (EmptyString, EmptyString)
  | String c rest =>
    if is_digit c then
      let '(ds, tl) := span_digits rest in (String c ds, tl)
    else (EmptyString, s)
  end.

Fixpoint digits_value (acc : Z) (s : string) : Z :=
  match s with
  | EmptyString => acc
  | String c rest => digits_value (acc * 10 + Z.of_N (code c - 48)) rest
  end.

(** The integer part that the pattern of numbers matches at the head of
    a run of digits: "0" alone, or all the digits when the first is not
    0.  The second component is what the pattern leaves. *)
Definition int_part (ds : string) : option (string * string) :=
  match ds with
  | EmptyString => None
  | String c rest =>
    if (code c =? 48)%N then Some (String c EmptyString, rest)
    else Some (ds, EmptyString)
  end.

Definition nonempty (s : string) : bool :=
  match s with EmptyString => false | _ => true end.

(** The fraction that the pattern matches at the head of [s]: a dot and
    at least one digit.  Gives whether it matched and what is left. *)
Definition fraction (s : string) : bool * string :=
  match s with
  | String c rest =>
    if (code c =? 46)%N then
      let '(ds, tl) := span_digits rest in
      if nonempty ds then (true, tl) else (false, s)
    else (false, s)
  | EmptyString => (false, s)
  end.

(** The exponent that the pattern matches at the head of [s]: e or E, an
    optional sign and at least one digit. *)
Definition exponent (s : string) : bool * string :=
  match s with
  | String c rest =>
    if ((code c =? 101) || (code c =? 69))%N then
      let rest' :=
        match rest with
        | String sg r => if ((code sg =? 43) || (code sg =? 45))%N then r else rest
        | EmptyString => rest
        end in
      let '(ds, tl) := span_digits rest' in
      if nonempty ds then (true, tl) else (false, s)
    else (false, s)
  | EmptyString => (false, s)
  end.

(** The limits of the interpreter that the decoder can meet, as CPython
    3.11 sets them.  An integer literal of more than 4300 digits is
    refused.  The recursion limit is 1000: from the frame of
    [_execute_operation] in its thread the decoder can open 992
    containers inside one another; reading one of the constants NaN,
    Infinity and -Infinity takes one more level, and building the error
    of a misplaced delimiter, key or string takes three. *)
Definition int_max_str_digits : nat := 4300.
Definition max_nesting : nat := 992.
Definition constant_levels : nat := 1.
Definition error_levels : nat := 3.

(** *** The scanner *)

(** [TConstant] is one of NaN, Infinity and -Infinity, [TTooLong] an
    integer literal beyond the limit of digits, [TBadString] a string
    literal that is not well formed, [TBad] a piece of text where no
    token starts. *)
Inductive token : Type :=
| TLBrace | TRBrace | TLBracket | TRBracket | TColon | TComma
| TString (s : string)
| TAtom (v : json)
| TConstant (lexeme : string)
| TTooLong
| TBadString
| TBad.

(** What follows [p] in [w], when [w] starts with [p]. *)
Fixpoint strip_prefix (p w : string) : option string :=
  match p, w with
  | EmptyString, _ => Some w
  | String a p', String b w' => if Ascii.eqb a b then strip_prefix p' w' else None
  | String _ _, EmptyString => None
  end.

(** A token read at the head of a bare word, and the rest of the word,
    where no token starts. *)
Definition and_rest (t : token) (rest : string) : list token :=
  if nonempty rest then [t; TBad] else [t].

(** A number at the head of a bare word, as the decoder reads it: the
    longest head that is a number; an integer (no fraction, no exponent)
    is converted, which fails beyond the limit of digits. *)
Definition number (w : string) : list token :=
  let '(neg, body) :=
    match w with
    | String c rest => if (code c =? 45)%N then (true, rest) else (false, w)
    | EmptyString => (false, w)
    end in
  let '(ds, tl) := span_digits body in
  match int_part ds with
  | None => [TBad]
  | Some (int_digits, more_digits) =>
    let '(has_fraction, tl1) :=
      if nonempty more_digits then (false, tl) else fraction tl in
    let '(has_exponent, tl2) :=
      if nonempty more_digits then (false, tl1) else exponent tl1 in
    if has_fraction || has_exponent then
      and_rest (TAtom (JFloat (substring 0 (String.length w - String.length tl2) w))) tl2
    else if Nat.ltb int_max_str_digits (String.length int_digits) then [TTooLong]
    else
      and_rest (TAtom (JInt (if neg then - digits_value 0 int_digits
                             else digits_value 0 int_digits)%Z))
               (more_digits +:+ tl2)
  end.

(** A maximal run of [is_bare] characters starts with a constant or with
    a number, or with no token at all. *)
Definition bare_word (w : string) : list token :=
  match strip_prefix "null" w with Some rest => and_rest (TAtom JNull) rest | None =>
  match strip_prefix "true" w with Some rest => and_rest (TAtom (JBool true)) rest | None =>
  match strip_prefix "false" w with Some rest => and_rest (TAtom (JBool false)) rest | None =>
  match strip_prefix "NaN" w with Some rest => and_rest (TConstant "NaN") rest | None =>
  match strip_prefix "Infinity" w with Some rest => and_rest (TConstant "Infinity") rest | None =>
  match strip_prefix "-Infinity" w with Some rest => and_rest (TConstant "-Infinity") rest | None =>
  number w
  end end end end end end.

(** Where the scanner is: between tokens, inside a bare word, inside a
    string literal, or just after a backslash inside one.  The text read
    so far is kept in reverse. *)
Inductive mode : Type :=
| Between
| InWord (rev_acc : string)
| InString (rev_acc : string)
| InEscape (rev_acc : string).

Fixpoint rev_append (s acc : string) : string :=
  match s with
  | EmptyString => acc
  | String c rest => rev_append rest (String c acc)
  end.

Definition word_tokens (rev_acc : string) : list token :=
  bare_word (rev_append rev_acc "").

Definition string_token (rev_acc : string) : token :=
  match unescape (rev_append rev_acc "") with
  | Some s => TString s
  | None => TBadString
  end.

(** One character read between tokens: the tokens it completes and the
    mode that follows; no mode follows a character that starts no
    token. *)
Definition scan_between (c : ascii) : list token * option mode :=
  let n := code c in
  (if is_ws c then ([], Some Between)
   else if n =? 123 then ([TLBrace], Some Between)
   else if n =? 125 then ([TRBrace], Some Between)
   else if n =? 91 then ([TLBracket], Some Between)
   else if n =? 93 then ([TRBracket], Some Between)
   else if n =? 58 then ([TColon], Some Between)
   else if n =? 44 then ([TComma], Some Between)
   else if n =? 34 then ([], Some (InString ""))
   else if is_bare c then ([], Some (InWord (String c "")))
   else ([TBad], None))%N.

Definition scan_char (m : mode) (c : ascii) : list token * option mode :=
  match m with
  | Between => scan_between c
  | InWord acc =>
    if is_bare c then ([], Some (InWord (String c acc)))
    else
      let '(ts, m') := scan_between c in
      ((word_tokens acc ++ ts)%list, m')
  | InString acc =>
    if (code c =? 34)%N then ([string_token acc], Some Between)
    else if (code c =? 92)%N then ([], Some (InEscape (String c acc)))
    else ([], Some (InString (String c acc)))
  | InEscape acc => ([], Some (InString (String c acc)))
  end.

(** The tokens of a text, up to the first piece where no token starts. *)
Fixpoint scan (m : mode) (s : string) : list token :=
  match s with
  | EmptyString =>
    match m with
    | Between => []
    | InWord acc => word_tokens acc
    | InString _ | InEscape _ => [TBadString]
    end
  | String c rest =>
    let '(ts, m') := scan_char m c in
    (ts ++ match m' with Some m'' => scan m'' rest | None => [] end)%list
  end.

(** *** The automaton over tokens *)

(** The three ways the decoder fails: [json.JSONDecodeError] on a text
    that is no JSON document, [RecursionError] at the recursion limit,
    [ValueError] on an integer literal beyond the limit of digits. *)
Inductive failure : Type := Malformed | TooDeep | TooLong.

(** What a Python dict keeps of a sequence of key/value pairs: a repeated
    key keeps its first position and takes the last value. *)
Fixpoint dict_set (k : string) (v : json) (d : list (string * json)) : list (string * json) :=
  match d with
  | [] => [(k, v)]
  | (k', v') :: rest =>
    if String.eqb k k' then (k', v) :: rest else (k', v') :: dict_set k v rest
  end.

Definition dict_of_pairs (pairs : list (string * json)) : list (string * json) :=
  fold_left (fun d kv => dict_set (fst kv) (snd kv) d) pairs [].

(** An open container: an array with its items so far, an object with
    its pairs so far, or an object that has read a key and waits for the
    value.  Items and pairs are kept in reverse. *)
Inductive frame : Type :=
| FArray (rev_items : list json)
| FObject (rev_pairs : list (string * json))
| FKey (rev_pairs : list (string * json)) (key : string).

Inductive expect : Type :=
| EValue          (* a value *)
| EFirstItem      (* just after [ : a value or ] *)
| EFirstKey       (* just after { : a key or } *)
| EKey            (* after a comma in an object: a key *)
| EColon          (* after a key *)
| ENext           (* after a value in a container: a comma or the closer *)
| EEnd (v : json) (* the document is complete *).

(** [levels] more levels of recursion do not fit inside the containers
    of [stack]. *)
Definition too_deep (levels : nat) (stack : list frame) : bool :=
  Nat.ltb max_nesting (List.length stack + levels).

(** The error of a misplaced delimiter, key or string is built inside
    the open containers. *)
Definition complain (stack : list frame) : failure :=
  if too_deep error_levels stack then TooDeep else Malformed.

(** The failure when what is expected is not there.  Where a value is
    expected, and after the end of the document, the error is built once
    the containers are left. *)
Definition stuck (e : expect) (stack : list frame) : failure :=
  match e with
  | EValue | EFirstItem | EEnd _ => Malformed
  | EFirstKey | EKey | EColon | ENext => complain stack
  end.

(** A finished value goes to the innermost open container. *)
Definition put (v : json) (stack : list frame) : failure + (list frame * expect) :=
  match stack with
  | [] => inr ([], EEnd v)
  | FArray items :: up => inr (FArray (v :: items) :: up, ENext)
  | FKey pairs k :: up => inr (FObject ((k, v) :: pairs) :: up, ENext)
  | FObject _ :: _ => inl Malformed
  end.

(** A container is opened inside those of [stack], unless that is one
    too many for the recursion limit. *)
Definition open_container (f : frame) (e : expect) (stack : list frame)
  : failure + (list frame * expect) :=
  if too_deep 1 stack then inl TooDeep else inr (f :: stack, e).

Definition start_value (t : token) (stack : list frame) : failure + (list frame * expect) :=
  match t with
  | TAtom v => put v stack
  | TConstant w =>
    if too_deep constant_levels stack then inl TooDeep else put (JFloat w) stack
  | TString s => put (JString s) stack
  | TLBracket => open_container (FArray []) EFirstItem stack
  | TLBrace => open_container (FObject []) EFirstKey stack
  | TTooLong => inl TooLong
  | TBadString => inl (complain stack)
  | _ => inl Malformed
  end.

Definition start_key (t : token) (stack : list frame) : failure + (list frame * expect) :=
  match t, stack with
  | TString k, FObject pairs :: up => inr (FKey pairs k :: up, EColon)
  | _, _ => inl (complain stack)
  end.

Definition feed (t : token) (st : list frame * expect) : failure + (list frame * expect) :=
  let '(stack, e) := st in
  match e with
  | EValue => start_value t stack
  | EFirstItem =>
    match t, stack with
    | TRBracket, FArray _ :: up => put (JArray []) up
    | _, _ => start_value t stack
    end
  | EFirstKey =>
    match t, stack with
    | TRBrace, FObject _ :: up => put (JObject []) up
    | _, _ => start_key t stack
    end
  | EKey => start_key t stack
  | EColon => match t with TColon => inr (stack, EValue) | _ => inl (stuck e stack) end
  | ENext =>
    match stack, t with
    | FArray items :: up, TComma => inr (stack, EValue)
    | FArray items :: up, TRBracket => put (JArray (rev items)) up
    | FObject pairs :: up, TComma => inr (stack, EKey)
    | FObject pairs :: up, TRBrace => put (JObject (dict_of_pairs (rev pairs))) up
    | _, _ => inl (stuck e stack)
    end
  | EEnd _ => inl (stuck e stack)
  end.

Fixpoint run (ts : list token) (st : list frame * expect) : failure + json :=
  match ts with
  | [] => match st with (stack, EEnd v) => inr v | (stack, e) => inl (stuck e stack) end
  | t :: rest =>
    match feed t st with
    | inl f => inl f
    | inr st' => run rest st'
    end
  end.

(** [loads s] is the value that [json.loads(s)] returns, or the way it
    fails: the tokens are read from left to right and the first failure
    met is the one raised. *)
Definition loads (s : string) : failure + json :=
  run (scan Between s) ([], EValue).

(** [decode s] is [Some v] when [json.loads(s)] returns [v] and [None]
    when it raises. *)
Definition decode (s : string) : option json :=
  match loads s with
  | inr v => Some v
  | inl _ => None
  end.

End Json.

Import Json.

(** ** Python values and library calls used by the program *)

(** The double quote character, and a text between double quotes. *)
Definition dq : string := String (ascii_of_N 34) EmptyString.
Definition quoted (s : string) : string := dq +:+ s +:+ dq.

(** The exceptions the program can meet. *)
Inductive exn : Type :=
| JSONDecodeError (doc : string)
| ValueError (detail : string)
| RecursionError
| UnicodeDecodeError
| TimeoutError
| OSError (detail : string).

(** [a or b] on strings: the empty string is false. *)
Definition py_or (a b : string) : string :=
  match a with EmptyString => b | _ => a end.

(** [s.split(sep)] for a one-character separator. *)
Fixpoint split (sep : ascii) (s : string) : list string :=
  match s with
  | EmptyString => [EmptyString]
  | String c rest =>
    if Ascii.eqb c sep then EmptyString :: split sep rest
    else
      match split sep rest with
      | w :: ws => String c w :: ws
      | [] => [String c EmptyString]
      end
  end.

(** *** [int(s)]

    [int] reads a text in three steps (CPython 3.11, Unicode 14.0): every
    character beyond ASCII becomes a space when it is a Unicode space, an
    ASCII digit when it is a decimal digit of any script, and a
    character that no number holds otherwise; then blanks are dropped at
    both ends; then an optional sign and digits are read, in which single
    underscores may separate digits.  A text of more than 4300 digits is
    refused.  Every failure is a ValueError. *)

(** The code points of a text, from its UTF-8 encoding. *)
Definition continuation (c : ascii) : option N :=
  if in_range 128 191 c then Some (code c - 128)%N else None.

Fixpoint utf8_points (s : string) : option (list N) :=
  match s with
  | EmptyString => Some []
  | String c rest =>
    let n := code c in
    if (n <? 128)%N then cps ← utf8_points rest; Some (n :: cps)
    else if in_range 194 223 c then
      match rest with
      | String c1 rest1 =>
        x1 ← continuation c1; cps ← utf8_points rest1;
        Some (((n - 192) * 64 + x1)%N :: cps)
      | _ => None
      end
    else if in_range 224 239 c then
      match rest with
      | String c1 (String c2 rest2) =>
        x1 ← continuation c1; x2 ← continuation c2; cps ← utf8_points rest2;
        let cp := (((n - 224) * 64 + x1) * 64 + x2)%N in
        if (cp <? 2048)%N then None else Some (cp :: cps)
      | _ => None
      end
    else if in_range 240 244 c then
      match rest with
      | String c1 (String c2 (String c3 rest3)) =>
        x1 ← continuation c1; x2 ← continuation c2; x3 ← continuation c3;
        cps ← utf8_points rest3;
        let cp := ((((n - 240) * 64 + x1) * 64 + x2) * 64 + x3)%N in
        if ((cp <? 65536) || (1114111 <? cp))%N then None else Some (cp :: cps)
      | _ => None
      end
    else None
  end.

(** The spaces of Unicode beyond ASCII. *)
Definition unicode_space (cp : N) : bool :=
  ((cp =? 133) || (cp =? 160) || (cp =? 5760)
   || ((8192 <=? cp) && (cp <=? 8202))
   || (cp =? 8232) || (cp =? 8233) || (cp =? 8239) || (cp =? 8287)
   || (cp =? 12288))%N.

(** The digit zero of every script that has decimal digits beyond ASCII;
    the nine other digits of the script follow it. *)
Definition decimal_zeros : list N :=
  [
    1632; 1776; 1984; 2406; 2534; 2662; 2790; 2918;
    3046; 3174; 3302; 3430; 3558; 3664; 3792; 3872;
    4160; 4240; 6112; 6160; 6470; 6608; 6784; 6800;
    6992; 7088; 7232; 7248; 42528; 43216; 43264; 43472;
    43504; 43600; 44016; 65296; 66720; 68912; 69734; 69872;
    69942; 70096; 70384; 70736; 70864; 71248; 71360; 71472;
    71904; 72016; 72784; 73040; 73120; 92768; 92864; 93008;
    120782; 120792; 120802; 120812; 120822; 123200; 123632; 125264;
    130032
  ]%N.

Definition unicode_decimal (cp : N) : option N :=
  z ← List.find (fun z => ((z <=? cp) && (cp <=? z + 9))%N) decimal_zeros;
  Some (cp - z)%N.

(** The ASCII character that [int] reads for a character of the text; the
    question mark stands for a character that no number holds. *)
Definition int_char (cp : N) : ascii :=
  if (cp <? 127)%N then chr cp
  else if unicode_space cp then " "%char
  else
    match unicode_decimal cp with
    | Some d => chr (48 + d)
    | None => "?"%char
    end.

Fixpoint string_of_chars (cs : list ascii) : string :=
  match cs with
  | [] => EmptyString
  | c :: rest => String c (string_of_chars rest)
  end.

(** The blanks that [int] drops: tab, line feed, vertical tab, form
    feed, carriage return and space. *)
Definition is_blank (c : ascii) : bool :=
  in_range 9 13 c || (code c =? 32)%N.

Fixpoint lstrip (s : string) : string :=
  match s with
  | String c rest => if is_blank c then lstrip rest else s
  | EmptyString => s
  end.

Fixpoint all_blank (s : string) : bool :=
  match s with
  | String c rest => is_blank c && all_blank rest
  | EmptyString => true
  end.

(** Digits after at least one digit has been read; [after_digit] tells
    whether the previous character was a digit (not an underscore). *)
Fixpoint int_digits (acc : Z) (after_digit : bool) (s : string) : option Z :=
  match s with
  | EmptyString => if after_digit then Some acc else None
  | String c rest =>
    if is_digit c then int_digits (acc * 10 + Z.of_N (code c - 48)) true rest
    else if (code c =? 95)%N then
      if after_digit then int_digits acc false rest else None
    else if after_digit && all_blank s then Some acc
    else None
  end.

Definition int_unsigned (s : string) : option Z :=
  match s with
  | String c _ => if is_digit c then int_digits 0 false s else None
  | EmptyString => None
  end.

Fixpoint count_digits (s : string) : nat :=
  match s with
  | EmptyString => 0
  | String c rest => (if is_digit c then 1 else 0) + count_digits rest
  end.

(** [int] on a text of ASCII characters. *)
Definition int_ascii (s : string) : option Z :=
  if Nat.ltb int_max_str_digits (count_digits s) then None
  else
    match lstrip s with
    | String c rest =>
      if (code c =? 45)%N then Z.opp <$> int_unsigned rest
      else if (code c =? 43)%N then int_unsigned rest
      else int_unsigned (String c rest)
    | EmptyString => None
    end.

Definition py_int (s : string) : option Z :=
  cps ← utf8_points s;
  int_ascii (string_of_chars (List.map int_char cps)).

(** ** Effects

    A computation of the program yields the events it performed, in
    order, the time it took in milliseconds, and either a value or the
    exception that ended it. *)

(** A text built by a callback: a string the program holds, an f-string
    made of a prefix and the exception [e] of the handler that scheduled
    the callback, or [json.dumps(v, indent=2)] of a decoded value.  The
    trace records the callbacks as they are scheduled; the main loop of
    Tk runs them later. *)
Inductive text : Type :=
| Lit (s : string)
| Fmt (prefix : string) (e : exn)
| Dumps (v : json).

(** The request: the dict [op] of [_execute_operation]. *)
Record command : Type := Command {
  Type_ : string;
  Database : string;
  Table : string;
  Data : json;
  Condition : json
}.

(** The callbacks handed to [root.after(0, ...)]. *)
Inductive callback : Type :=
| ShowError (title : string) (message : text)  (* messagebox.showerror *)
| StatusConfig (message : text) (fg : string)  (* self.status.config *)
| ResultDelete                                 (* self.result.delete(1.0, tk.END) *)
| ResultInsert (content : text)                (* self.result.insert(tk.END, ...) *)
| LabelConfig (node : string) (message : string) (fg : string).
                                               (* self.status_labels[n].config *)

Inductive event : Type :=
| EvSocket                          (* socket.socket(AF_INET, SOCK_STREAM) *)
| EvSetTimeout (seconds : N)        (* s.settimeout *)
| EvConnect (host : string) (port : Z)  (* s.connect((host, port)) *)
| EvSendAll (payload : command)     (* s.sendall(json.dumps(op).encode()) *)
| EvRecv (bufsize : N)              (* s.recv(bufsize).decode() *)
| EvClose                           (* leaving the with block of the socket *)
| EvAfter (cb : callback)           (* self.root.after(0, cb) *)
| EvSleep (seconds : N).            (* time.sleep *)

Record run (A : Type) : Type := Run {
  elapsed : N;
  trace : list event;
  result : exn + A
}.
Arguments Run {A} _ _ _.
Arguments elapsed {A} _.
Arguments trace {A} _.
Arguments result {A} _.

Definition raise {A : Type} (e : exn) : run A := Run 0 [] (inl e).

#[global] Instance run_ret : MRet run := fun A a => Run 0 [] (inr a).

#[global] Instance run_bind : MBind run := fun A B f m =>
  match result m with
  | inl e => Run (elapsed m) (trace m) (inl e)
  | inr a =>
    let r := f a in
    Run (elapsed m + elapsed r) (trace m ++ trace r)%list (result r)
  end.

Definition emit (ev : event) : run unit := Run 0 [ev] (inr tt).

(** [self.root.after(0, cb)] *)
Definition after (cb : callback) : run unit := emit (EvAfter cb).

(** try: [m] except: [handler e] *)
Definition catch {A : Type} (m : run A) (handler : exn -> run A) : run A :=
  match result m with
  | inl e =>
    let r := handler e in
    Run (elapsed m + elapsed r) (trace m ++ trace r)%list (result r)
  | inr _ => m
  end.

(** [final] runs when [m] ends, whichever way it ends. *)
Definition ensure {A : Type} (m : run A) (final : run unit) : run A :=
  Run (elapsed m + elapsed final) (trace m ++ trace final)%list (result m).

(** *** The network

    A blocking socket call would take [takes] milliseconds and then give
    [gives].  Under a socket timeout the call raises [TimeoutError] once
    the timeout has passed. *)
Record blocking (A : Type) : Type := Blocking {
  takes : N;
  gives : exn + A
}.
Arguments Blocking {A} _ _.
Arguments takes {A} _.
Arguments gives {A} _.

Definition timed {A : Type} (timeout_s : N) (call : blocking A) : run A :=
  if (timeout_s * 1000 <=? takes call)%N
  then Run (timeout_s * 1000) [] (inl TimeoutError)
  else Run (takes call) [] (gives call).

(** The behaviour of the operating system and of the peers.  The answer
    of [net_recv] is the text that [s.recv(4096).decode()] gives, or the
    exception of either call. *)
Record network : Type := Network {
  net_socket : option exn;   (* the error of socket.socket(), if any *)
  net_connect : string -> Z -> blocking unit;
  net_sendall : string -> Z -> command -> blocking unit;
  net_recv : string -> Z -> command -> blocking string
}.

(** with socket.socket(...) as s: [body] *)
Definition with_socket {A : Type} (net : network) (body : run A) : run A :=
  match net_socket net with
  | Some e => raise e
  | None => _ ← emit EvSocket; ensure body (emit EvClose)
  end.

(** The exception that [json.loads(doc)] raises for each failure of the
    decoder. *)
Definition decoder_error (f : failure) (doc : string) : exn :=
  match f with
  | Malformed => JSONDecodeError doc
  | TooDeep => RecursionError
  | TooLong => ValueError "integer string conversion"
  end.

(** [json.loads(s)] *)
Definition json_loads (s : string) : run json :=
  match loads s with
  | inr v => mret v
  | inl f => raise (decoder_error f s)
  end.

(** [json.dumps(op)] fails at the recursion limit from the same frame
    as [json.loads]: the dict [op] is one container, around those of its
    Data and Condition. *)
Definition serializable (op : command) : bool :=
  Nat.leb (S (Nat.max (depth (Data op)) (depth (Condition op)))) max_nesting.

Definition json_dumps (op : command) : run command :=
  if serializable op then mret op else raise RecursionError.

(** [host, port = addr.split(":")] *)
Definition unpack_addr (addr : string) : run (string * string) :=
  match split ":" addr with
  | [host; port] => mret (host, port)
  | _ => raise (ValueError "unpack")
  end.

(** [int(port)] *)
Definition int_of (port : string) : run Z :=
  match py_int port with
  | Some p => mret p
  | None => raise (ValueError "int")
  end.

(** ** The state of [DatabaseGUI] *)

Definition green : string := "#4CAF50".
Definition red : string := "#F44336".
Definition orange : string := "#FF9800".

(** The widgets of the input frame. *)
Inductive widget : Type :=
| db_label | db_entry
| table_label | table_entry
| data_label | data_entry
| cond_label | cond_entry.

(** The Tk variables [node_type] ... [condition] (the last four are the
    texts of the four entries), the dict [status_colors], the values of
    the operation radio buttons, the widgets packed in the input frame in
    packing order, and the flag [running]. *)
Record gui : Type := Gui {
  node_type : string;
  node_ip_port : string;
  operation : string;
  database : string;
  table : string;
  data : string;
  condition : string;
  status_colors : gmap string string;
  radio_buttons : list string;
  packed : list widget;
  running : bool
}.

Definition set_node_type (v : string) (st : gui) : gui :=
  let 'Gui _ b c d e f g h i j k := st in Gui v b c d e f g h i j k.
Definition set_node_ip_port (v : string) (st : gui) : gui :=
  let 'Gui a _ c d e f g h i j k := st in Gui a v c d e f g h i j k.
Definition set_operation (v : string) (st : gui) : gui :=
  let 'Gui a b _ d e f g h i j k := st in Gui a b v d e f g h i j k.
Definition set_database (v : string) (st : gui) : gui :=
  let 'Gui a b c _ e f g h i j k := st in Gui a b c v e f g h i j k.
Definition set_table (v : string) (st : gui) : gui :=
  let 'Gui a b c d _ f g h i j k := st in Gui a b c d v f g h i j k.
Definition set_data (v : string) (st : gui) : gui :=
  let 'Gui a b c d e _ g h i j k := st in Gui a b c d e v g h i j k.
Definition set_condition (v : string) (st : gui) : gui :=
  let 'Gui a b c d e f _ h i j k := st in Gui a b c d e f v h i j k.
Definition set_status_colors (v : gmap string string) (st : gui) : gui :=
  let 'Gui a b c d e f g _ i j k := st in Gui a b c d e f g v i j k.
Definition set_packed (v : list widget) (st : gui) : gui :=
  let 'Gui a b c d e f g h i _ k := st in Gui a b c d e f g h i v k.
Definition set_running (v : bool) (st : gui) : gui :=
  let 'Gui a b c d e f g h i j _ := st in Gui a b c d e f g h i j v.

(** [self.node_configs]: a dict, kept as its items in insertion order. *)
Definition node_configs : list (string * string) :=
  [ ("Master", "192.168.149.137:8000");
    ("Slave 1", "192.168.149.137:8001");
    ("Slave 2", "192.168.149.137:8002") ].

(** [self.node_configs[key]] *)
Definition config_of (key : string) : option string :=
  snd <$> List.find (fun kv => String.eqb (fst kv) key) node_configs.

(** *** [update_fields] *)

(** [w.pack(...)] *)
Definition pack (w : widget) (st : gui) : gui :=
  set_packed (packed st ++ [w])%list st.

(** The loop of [pack_forget] over the eight widgets. *)
Definition forget_all (st : gui) : gui := set_packed [] st.

(** The four [entry.delete(0, tk.END)]. *)
Definition clear_entries (st : gui) : gui :=
  set_condition EmptyString
    (set_data EmptyString (set_table EmptyString (set_database EmptyString st))).

(** Label and entry are packed, then [entry.insert(0, example)]. *)
Definition show_db (example : string) (st : gui) : gui :=
  let st := pack db_entry (pack db_label st) in
  set_database (example +:+ database st) st.
Definition show_table (example : string) (st : gui) : gui :=
  let st := pack table_entry (pack table_label st) in
  set_table (example +:+ table st) st.
Definition show_data (example : string) (st : gui) : gui :=
  let st := pack data_entry (pack data_label st) in
  set_data (example +:+ data st) st.
Definition show_cond (example : string) (st : gui) : gui :=
  let st := pack cond_entry (pack cond_label st) in
  set_condition (example +:+ condition st) st.

(** The example texts inserted in the data and condition entries. *)
Definition example_columns : string :=
  "{" +:+ quoted "id" +:+ ": " +:+ quoted "int" +:+ ", "
      +:+ quoted "name" +:+ ": " +:+ quoted "string" +:+ "}".
Definition example_row : string :=
  "{" +:+ quoted "id" +:+ ": 1, " +:+ quoted "name" +:+ ": "
      +:+ quoted "Alice" +:+ "}".
Definition example_update : string :=
  "{" +:+ quoted "name" +:+ ": " +:+ quoted "Alicia" +:+ "}".
Definition example_cond : string := "{" +:+ quoted "id" +:+ ": 1}".

Definition update_fields (st : gui) : gui :=
  let st := clear_entries (forget_all st) in
  let op := operation st in
  if String.eqb op "CREATE_DB" then show_db "mydb" st
  else if String.eqb op "DROP_DB" then show_db "mydb" st
  else if String.eqb op "CREATE_TABLE" then
    show_data example_columns (show_table "users" (show_db "mydb" st))
  else if String.eqb op "INSERT" then
    show_data example_row (show_table "users" (show_db "mydb" st))
  else if String.eqb op "UPDATE" then
    show_cond example_cond
      (show_data example_update (show_table "users" (show_db "mydb" st)))
  else if String.eqb op "DELETE" then
    show_cond example_cond (show_table "users" (show_db "mydb" st))
  else if String.eqb op "SEARCH" then
    show_cond example_cond (show_table "users" (show_db "mydb" st))
  else st.

(** *** [__init__], [update_node_ip], [cleanup] *)

(** The list [operations] of [__init__], for the value [role] that
    [self.node_type.get()] has when the list is built. *)
Definition operations_for (role : string) : list string :=
  let operations :=
    ["CREATE_DB"; "CREATE_TABLE"; "INSERT"; "UPDATE"; "DELETE"; "SEARCH"] in
  if String.eqb role "Master" then (operations ++ ["DROP_DB"])%list
  else operations.

(** The state at the end of [__init__]. *)
Definition __init__ : gui :=
  let node_type := "Master" in
  let status_colors :=
    fold_left (fun m kv => <[fst kv := orange]> m) node_configs ∅ in
  let radio_buttons := operations_for node_type in
  let st :=
    Gui node_type "192.168.149.137:8000" "CREATE_DB"
        EmptyString EmptyString EmptyString EmptyString
        status_colors radio_buttons [] false in
  set_running true (update_fields st).

(** [update_node_ip]; [None] stands for the [KeyError] of the lookup. *)
Definition update_node_ip (st : gui) : option gui :=
  addr ← config_of (node_type st);
  Some (update_fields (set_node_ip_port addr st)).

Definition cleanup (st : gui) : gui := set_running false st.

(** The user picks [role] in the node combobox: the variable is set and
    the handler bound to the selection runs. *)
Definition select_node (role : string) (st : gui) : option gui :=
  update_node_ip (set_node_type role st).

(** The user clicks the radio button of value [op]. *)
Definition select_operation (op : string) (st : gui) : gui :=
  update_fields (set_operation op st).

(** *** [_execute_operation] *)

(** The response part of [_execute_operation]: from the
    [result.delete] after [recv] to the end of the with block. *)
Definition show_response (op : command) (data : string) : run unit :=
  _ ← after ResultDelete;
  if String.eqb (Type_ op) "SEARCH" then
    catch
      (results ← json_loads data;
       _ ← after (ResultInsert (Dumps results));
       after (StatusConfig (Lit "SEARCH completed") green))
      (fun e =>
         match e with
         | JSONDecodeError _ =>
           _ ← after (ResultInsert (Lit data));
           after (StatusConfig (Lit "Error: Invalid SEARCH response") red)
         | _ => raise e
         end)
  else
    _ ← after (ResultInsert (Lit data));
    if String.prefix "Error" data then
      after (StatusConfig (Lit "Operation failed") red)
    else
      after (StatusConfig (Lit ("Operation " +:+ Type_ op +:+ " completed")) green).

(** The first try block: the dict [op] with its parsed fields. *)
Definition build_op (st : gui) : run command :=
  d ← json_loads (py_or (data st) "{}");
  c ← json_loads (py_or (condition st) "{}");
  mret (Command (operation st) (database st) (table st) d c).

(** The body of the with block, up to the decoded answer. *)
Definition exchange (net : network) (addr : string) (op : command) : run string :=
  '(host, port) ← unpack_addr addr;
  _ ← emit (EvSetTimeout 10);
  p ← int_of port;
  _ ← emit (EvConnect host p);
  _ ← timed 10 (net_connect net host p);
  payload ← json_dumps op;
  _ ← emit (EvSendAll payload);
  _ ← timed 10 (net_sendall net host p op);
  _ ← emit (EvRecv 4096);
  timed 10 (net_recv net host p op).

Definition _execute_operation (net : network) (st : gui) : run unit :=
  let addr := node_ip_port st in
  built ←
    catch (op ← build_op st; mret (Some op))
      (fun e =>
         match e with
         | JSONDecodeError _ =>
           _ ← after (ShowError "Error" (Fmt "Invalid JSON: " e));
           _ ← after (StatusConfig (Lit "Error: Invalid JSON") red);
           mret None
         | _ => raise e
         end);
  match built with
  | None => mret tt
  | Some op =>
    catch
      (with_socket net
         (data ← exchange net addr op;
          show_response op data))
      (fun e =>
         _ ← after (ShowError "Error" (Fmt "Failed to execute operation: " e));
         _ ← after (StatusConfig (Fmt "Error: " e) red);
         _ ← after ResultDelete;
         after (ResultInsert (Fmt "Error: " e)))
  end.


(** *** [check_node_status] *)

Definition set_status_color (node color : string) (st : gui) : gui :=
  set_status_colors (<[node := color]> (status_colors st)) st.

(** The body of the for loop, for one item of [node_configs]. *)
Definition probe (net : network) (node addr : string) (st : gui) : run gui :=
  '(host, port) ← unpack_addr addr;
  catch
    (with_socket net
       (_ ← emit (EvSetTimeout 2);
        p ← int_of port;
        _ ← emit (EvConnect host p);
        _ ← timed 2 (net_connect net host p);
        let st := set_status_color node green st in
        _ ← after (LabelConfig node "Connected" green);
        mret st))
    (fun _ =>
       let st := set_status_color node red st in
       _ ← after (LabelConfig node "Disconnected" red);
       mret st).

(** The for loop over the items [nodes]: one sweep when [nodes] is
    [node_configs]. *)
Fixpoint sweep (net : network) (nodes : list (string * string)) (st : gui) : run gui :=
  match nodes with
  | [] => mret st
  | (node, addr) :: rest => st ← probe net node addr st; sweep net rest st
  end.

(** Where the thread of [check_node_status] stands: at the test of the
    while loop, inside the for loop with the items still to probe, or
    ended (the loop was left, or an exception left the function). *)
Inductive pc : Type :=
| AtWhile
| InFor (todo : list (string * string))
| Returned
| Died (e : exn).

(** The object shared by the two threads, and the monitor thread. *)
Record system : Type := System {
  app : gui;
  monitor : pc;
  log : list event
}.

(** One step of [check_node_status]: the test of [self.running], one
    iteration of the for loop, or [time.sleep(5)] when the for loop has
    no item left. *)
Definition monitor_step (net : network) (s : system) : system :=
  match monitor s with
  | AtWhile =>
    if running (app s) then System (app s) (InFor node_configs) (log s)
    else System (app s) Returned (log s)
  | InFor [] => System (app s) AtWhile (log s ++ [EvSleep 5])%list
  | InFor ((node, addr) :: rest) =>
    let r := probe net node addr (app s) in
    match result r with
    | inr st => System st (InFor rest) (log s ++ trace r)%list
    | inl e => System (app s) (Died e) (log s ++ trace r)%list
    end
  | Returned | Died _ => s
  end.

(** What can happen next: the monitor thread takes a step, or the main
    thread runs [cleanup] (the window is closed). *)
Inductive action : Type := Monitor | Cleanup.

Definition step (net : network) (s : system) (a : action) : system :=
  match a with
  | Monitor => monitor_step net s
  | Cleanup => System (cleanup (app s)) (monitor s) (log s)
  end.

Definition exec (net : network) (acts : list action) (s : system) : system :=
  fold_left (step net) acts s.

(** The system when [__init__] has started the thread. *)
Definition started : system := System __init__ AtWhile [].

(** *** Reading traces and thread states *)

(** The socket operations among the events. *)
Definition is_network_io (ev : event) : bool :=
  match ev with
  | EvSocket | EvSetTimeout _ | EvConnect _ _ | EvSendAll _ | EvRecv _ | EvClose => true
  | EvAfter _ | EvSleep _ => false
  end.

(** The connection attempts of a log. *)
Definition is_connect (ev : event) : bool :=
  match ev with EvConnect _ _ => true | _ => false end.

Definition probes (l : list event) : list event := List.filter is_connect l.

(** The callbacks scheduled by the handler of [json.JSONDecodeError]. *)
Definition invalid_json_report (e : exn) : list event :=
  [ EvAfter (ShowError "Error" (Fmt "Invalid JSON: " e));
    EvAfter (StatusConfig (Lit "Error: Invalid JSON") red) ].

(** The callbacks scheduled by the handler of the second try block. *)
Definition failure_report (e : exn) : list event :=
  [ EvAfter (ShowError "Error" (Fmt "Failed to execute operation: " e));
    EvAfter (StatusConfig (Fmt "Error: " e) red);
    EvAfter ResultDelete;
    EvAfter (ResultInsert (Fmt "Error: " e)) ].

(** The items of the for loop that the thread has still to probe in the
    sweep it is in. *)
Definition pending (m : pc) : nat :=
  match m with InFor todo => length todo | _ => 0 end.

(** Whether the thread has ended. *)
Definition ended (m : pc) : bool :=
  match m with Returned | Died _ => true | AtWhile | InFor _ => false end.

(** The steps the thread can still take once [running] is false. *)
Definition rank (m : pc) : nat :=
  match m with
  | InFor todo => length todo + 2
  | AtWhile => 1
  | Returned | Died _ => 0
  end.

Definition monitor_steps (acts : list action) : nat :=
  length (List.filter (fun a => match a with Monitor => true | Cleanup => false end) acts).

(** ** The words of the specification *)

(** *** The operation catalog *)

Inductive OperationKind : Type :=
| CREATE_DB | DROP_DB | CREATE_TABLE | INSERT | UPDATE | DELETE | SEARCH.

Definition kind_name (k : OperationKind) : string :=
  match k with
  | CREATE_DB => "CREATE_DB"
  | DROP_DB => "DROP_DB"
  | CREATE_TABLE => "CREATE_TABLE"
  | INSERT => "INSERT"
  | UPDATE => "UPDATE"
  | DELETE => "DELETE"
  | SEARCH => "SEARCH"
  end.

Inductive field : Type := database_field | table_field | data_field | condition_field.

(** The table of required fields of the specification. *)
Definition spec_required_fields (k : OperationKind) : list field :=
  match k with
  | CREATE_DB | DROP_DB => [database_field]
  | CREATE_TABLE | INSERT => [database_field; table_field; data_field]
  | UPDATE => [database_field; table_field; data_field; condition_field]
  | DELETE | SEARCH => [database_field; table_field; condition_field]
  end.

(** The label and the entry that present a field. *)
Definition widgets_of (f : field) : list widget :=
  match f with
  | database_field => [db_label; db_entry]
  | table_field => [table_label; table_entry]
  | data_field => [data_label; data_entry]
  | condition_field => [cond_label; cond_entry]
  end.

(** The fields whose entry is packed, in packing order. *)
Definition presented (st : gui) : list field :=
  flat_map
    (fun w =>
       match w with
       | db_entry => [database_field]
       | table_entry => [table_field]
       | data_entry => [data_field]
       | cond_entry => [condition_field]
       | _ => []
       end)
    (packed st).

(** *** Node health *)

Inductive health : Type := Unknown | Reachable | Unreachable.

#[global] Instance health_eq_dec : EqDecision health.
Proof. solve_decision. Defined.

(** The colour kept in [status_colors] read as a health: green is
    written after a connection, red after an exception, and the orange of
    [__init__] is neither. *)
Definition color_health (color : string) : health :=
  if String.eqb color green then Reachable
  else if String.eqb color red then Unreachable
  else Unknown.

Definition health_of (st : gui) (node : string) : health :=
  match status_colors st !! node with
  | Some color => color_health color
  | None => Unknown
  end.

Definition count_health (h : health) (st : gui) : nat :=
  length (List.filter (fun node => bool_decide (health_of st node = h))
            (List.map fst node_configs)).

(** The registered endpoints: role, host and port of each item of
    [node_configs]. *)
Definition registered : list (string * string * Z) :=
  [ ("Master", "192.168.149.137", 8000%Z);
    ("Slave 1", "192.168.149.137", 8001%Z);
    ("Slave 2", "192.168.149.137", 8002%Z) ].

(** Role, host and port of an item of [node_configs], as the for loop
    reads them. *)
Definition endpoint_of (item : string * string) : option (string * string * Z) :=
  match split ":" (snd item) with
  | [host; ps] => p ← py_int ps; Some (fst item, host, p)
  | _ => None
  end.

(** Whether a probe of the endpoint succeeds: the socket is created and
    the connection is made within the two seconds of the timeout. *)
Definition reachable (net : network) (host : string) (port : Z) : bool :=
  match net_socket net with
  | Some _ => false
  | None =>
    match result (timed 2 (net_connect net host port)) with
    | inr _ => true
    | inl _ => false
    end
  end.

(** The socket operations of one probe. *)
Definition bare_connection (host : string) (port : Z) : list event :=
  [EvSocket; EvSetTimeout 2; EvConnect host port; EvClose].

(** ** States and networks used as examples *)

(** The user has chosen INSERT and typed null in the data entry. *)
Definition typed_null : gui :=
  set_data "null" (select_operation "INSERT" __init__).

(** The user has chosen INSERT and typed a text that is no JSON. *)
Definition typed_garbage : gui :=
  set_data "not json" (select_operation "INSERT" __init__).

(** The user has chosen DROP_DB and then the node Slave 1. *)
Definition drop_on_slave : gui :=
  default __init__ (select_node "Slave 1" (select_operation "DROP_DB" __init__)).

(** A SEARCH command, and an answer that holds one row. *)
Definition search_users : command :=
  Command "SEARCH" "mydb" "users" empty_object empty_object.

Definition alice_rows : string :=
  "[{" +:+ quoted "id" +:+ ":1," +:+ quoted "name" +:+ ":"
       +:+ quoted "Alice" +:+ "}]".

(** The text [s] written [n] times: [s * n]. *)
Fixpoint times (n : nat) (s : string) : string :=
  match n with
  | O => EmptyString
  | S k => s +:+ times k s
  end.

(** The user has chosen INSERT and typed a number of 4301 digits in the
    data entry. *)
Definition typed_long_number : gui :=
  set_data (times 4301 "1") (select_operation "INSERT" __init__).

(** The user has chosen INSERT and typed 992 arrays inside one another
    in the data entry. *)
Definition typed_deep_data : gui :=
  set_data (times 992 "[" +:+ times 992 "]") (select_operation "INSERT" __init__).

(** The user has chosen SEARCH and left the examples as they are. *)
Definition searching : gui := select_operation "SEARCH" __init__.

(** An answer of 4000 bytes: 2000 arrays inside one another. *)
Definition deep_rows : string := times 2000 "[" +:+ times 2000 "]".

(** Every peer refuses the connection. *)
Definition refusing : network :=
  Network None
    (fun _ _ => Blocking 1 (inl (OSError "Connection refused")))
    (fun _ _ _ => Blocking 0 (inr tt))
    (fun _ _ _ => Blocking 0 (inr EmptyString)).

(** Only the master accepts connections; the other peers refuse. *)
Definition master_only : network :=
  Network None
    (fun _ port =>
       if (port =? 8000)%Z then Blocking 1 (inr tt)
       else Blocking 1 (inl (OSError "Connection refused")))
    (fun _ _ _ => Blocking 0 (inr tt))
    (fun _ _ _ => Blocking 0 (inr EmptyString)).

(** Every peer accepts and answers [answer]; each call takes [ms]
    milliseconds. *)
Definition answering (ms : N) (answer : string) : network :=
  Network None
    (fun _ _ => Blocking ms (inr tt))
    (fun _ _ _ => Blocking ms (inr tt))
    (fun _ _ _ => Blocking ms (inr answer)).

(** The peer accepts the connection after a minute. *)
Definition stalled : network :=
  Network None
    (fun _ _ => Blocking 60000 (inr tt))
    (fun _ _ _ => Blocking 0 (inr tt))
    (fun _ _ _ => Blocking 0 (inr EmptyString)).

(** The thread has tested the flag and probed the master, then the main
    thread has run [cleanup]. *)
Definition stopped_in_sweep : system :=
  exec refusing [Monitor; Monitor; Cleanup] started.

(** The operating system has no descriptor left for a socket. *)
Definition no_descriptors : network :=
  Network (Some (OSError "Too many open files"))
    (fun _ _ => Blocking 0 (inr tt))
    (fun _ _ _ => Blocking 0 (inr tt))
    (fun _ _ _ => Blocking 0 (inr EmptyString)).

(** The thread has made one sweep while only the master accepted. *)
Definition swept_once : system :=
  exec master_only [Monitor; Monitor; Monitor; Monitor] started.

(** ** The rest of the program *)

(** *** [execute] *)

(** [execute]: the status line is set at once, then a new thread runs
    [_execute_operation]. *)
Definition execute (net : network) (st : gui) : callback * run unit :=
  (StatusConfig (Lit "Processing...") orange, _execute_operation net st).

(** *** The gestures of the user

    What the widgets created by [__init__] let the user do: pick one of
    the values of the read-only node combobox, click one of the operation
    radio buttons, or type a text in an entry that is packed. *)

#[global] Instance field_eq_dec : EqDecision field.
Proof. solve_decision. Defined.

(** The values of the node combobox. *)
Definition node_values : list string := ["Master"; "Slave 1"; "Slave 2"].

(** The text of the entry of a field, and the same after the user has
    replaced it. *)
Definition entry_text (f : field) (st : gui) : string :=
  match f with
  | database_field => database st
  | table_field => table st
  | data_field => data st
  | condition_field => condition st
  end.

Definition set_entry (f : field) (s : string) (st : gui) : gui :=
  match f with
  | database_field => set_database s st
  | table_field => set_table s st
  | data_field => set_data s st
  | condition_field => set_condition s st
  end.

Inductive gesture : Type :=
| PickNode (role : string)
| PickOperation (op : string)
| TypeText (f : field) (s : string).

(** One gesture; [None] when the widgets do not allow it. *)
Definition gesture_step (st : gui) (g : gesture) : option gui :=
  match g with
  | PickNode role =>
    if bool_decide (role ∈ node_values) then select_node role st else None
  | PickOperation op =>
    if bool_decide (op ∈ radio_buttons st) then Some (select_operation op st)
    else None
  | TypeText f s =>
    if bool_decide (f ∈ presented st) then Some (set_entry f s st) else None
  end.

Fixpoint gestures (gs : list gesture) (st : gui) : option gui :=
  match gs with
  | [] => Some st
  | g :: rest => st' ← gesture_step st g; gestures rest st'
  end.

(** The example text that [update_fields] inserts in the entry of a
    field, for each kind of operation; empty for an entry it leaves
    unpacked. *)
Definition example_text (k : OperationKind) (f : field) : string :=
  match f, k with
  | database_field, _ => "mydb"
  | table_field, (CREATE_DB | DROP_DB) => EmptyString
  | table_field, _ => "users"
  | data_field, CREATE_TABLE => example_columns
  | data_field, INSERT => example_row
  | data_field, UPDATE => example_update
  | data_field, _ => EmptyString
  | condition_field, (UPDATE | DELETE | SEARCH) => example_cond
  | condition_field, _ => EmptyString
  end.

(** What holds of the state whatever the user has done: the address is
    the one of the selected node, the radio buttons are those of
    [__init__], the operation is one of the seven kinds, the widgets
    packed are those of its fields, and the entries left unpacked are
    empty. *)
Definition tidy (st : gui) : Prop :=
  config_of (node_type st) = Some (node_ip_port st)
  /\ radio_buttons st = operations_for "Master"
  /\ exists k,
       operation st = kind_name k
       /\ packed st = flat_map widgets_of (spec_required_fields k)
       /\ forall f, ~ In f (spec_required_fields k) -> entry_text f st = EmptyString.

(** What [_execute_operation] reads of the state. *)
Definition form (st : gui) : string * string * string * string * string * string :=
  (node_ip_port st, operation st, database st, table st, data st, condition st).

(** *** More ways to read texts and traces *)

Fixpoint count_char (c : ascii) (s : string) : nat :=
  match s with
  | EmptyString => 0
  | String a rest => (if Ascii.eqb a c then 1 else 0) + count_char c rest
  end.

Fixpoint all_digits (s : string) : bool :=
  match s with
  | EmptyString => true
  | String c rest => is_digit c && all_digits rest
  end.

(** Texts made of the decoder's whitespace only. *)
Fixpoint all_ws (s : string) : bool :=
  match s with
  | EmptyString => true
  | String c rest => is_ws c && all_ws rest
  end.

(** The exception of the build that the handler of the first try block
    lets through, if there is one. *)
Definition unhandled (st : gui) : option exn :=
  match result (build_op st) with
  | inl (JSONDecodeError _) | inr _ => None
  | inl e => Some e
  end.

Definition is_status_update (ev : event) : bool :=
  match ev with EvAfter (StatusConfig _ _) => true | _ => false end.

(** The socket operations of a complete exchange, before the socket is
    closed. *)
Definition protocol (host : string) (port : Z) (op : command) : list event :=
  [EvSocket; EvSetTimeout 10; EvConnect host port; EvSendAll op; EvRecv 4096].

(** An item of [node_configs] whose address the for loop can read. *)
Definition well_formed (item : string * string) : bool :=
  match endpoint_of item with Some _ => true | None => false end.

(** The thread is in its loop, with addresses it can read ahead. *)
Definition in_loop (s : system) : Prop :=
  running (app s) = true
  /\ match monitor s with
     | AtWhile => True
     | InFor todo => Forall (fun item => well_formed item = true) todo
     | Returned | Died _ => False
     end.

(** *** [ToolTip]

    The widget is kept as its position on the screen, which is all that
    the class asks of it.  The display holds the [Toplevel] windows that
    exist and counts the windows created so far, which names them. *)
Module ToolTip.

Record toplevel : Type := Toplevel {
  win_id : nat;
  win_x : Z;
  win_y : Z;
  win_label : string
}.

Record display : Type := Display {
  windows : list toplevel;
  created : nat
}.

Record tip : Type := Tip {
  widget : Z * Z;         (* winfo_rootx(), winfo_rooty() of self.widget *)
  text : string;
  tooltip : option nat
}.

Definition __init__ (widget : Z * Z) (text : string) : tip := Tip widget text None.

Definition show_tooltip (t : tip) (d : display) : tip * display :=
  let x := (fst (widget t) + 20)%Z in
  let y := (snd (widget t) + 20)%Z in
  let id := created d in
  (Tip (widget t) (text t) (Some id),
   Display (windows d ++ [Toplevel id x y (text t)])%list (S id)).

(** [w.destroy()] *)
Definition destroy (id : nat) (d : display) : display :=
  Display (List.filter (fun w => negb (Nat.eqb (win_id w) id)) (windows d)) (created d).

Definition hide_tooltip (t : tip) (d : display) : tip * display :=
  match tooltip t with
  | Some id => (Tip (widget t) (text t) None, destroy id d)
  | None => (t, d)
  end.

(** The pointer enters or leaves the widget: the two bindings of
    [__init__]. *)
Inductive pointer : Type := Enter | Leave.

Definition handle (s : tip * display) (ev : pointer) : tip * display :=
  match ev with
  | Enter => show_tooltip (fst s) (snd s)
  | Leave => hide_tooltip (fst s) (snd s)
  end.

Definition handle_all (evs : list pointer) (s : tip * display) : tip * display :=
  fold_left handle evs s.

(** Every window of the display was named by the counter. *)
Definition named (d : display) : Prop :=
  Forall (fun w => win_id w < created d) (windows d).

End ToolTip.

(** ** Blocking calls under a timeout *)

Lemma timed_trace {A : Type} (timeout_s : N) (call : blocking A) :
  trace (timed timeout_s call) = [].
Proof. unfold timed. destruct (_ <=? _)%N; reflexivity. Qed.

Lemma timed_elapsed {A : Type} (timeout_s : N) (call : blocking A) :
  (elapsed (timed timeout_s call) <= timeout_s * 1000)%N.
Proof.
  unfold timed. destruct (N.leb_spec (timeout_s * 1000) (takes call)); simpl; lia.
Qed.

(** A call that reaches the timeout raises the timeout error. *)
Lemma timed_expired {A : Type} (timeout_s : N) (call : blocking A) :
  (timeout_s * 1000 <= takes call)%N ->
  timed timeout_s call = Run (timeout_s * 1000) [] (inl TimeoutError).
Proof.
  intros H. unfold timed.
  destruct (N.leb_spec (timeout_s * 1000) (takes call)); [reflexivity | lia].
Qed.

(** A call that ends before the timeout gives its own outcome. *)
Lemma timed_in_time {A : Type} (timeout_s : N) (call : blocking A) :
  (takes call < timeout_s * 1000)%N ->
  timed timeout_s call = Run (takes call) [] (gives call).
Proof.
  intros H. unfold timed.
  destruct (N.leb_spec (timeout_s * 1000) (takes call)); [lia | reflexivity].
Qed.

(** ** Tactics *)

(** Closes each part of a statement made of a conjunction of cases, once
    the outcome of the blocking calls is known. *)
Ltac by_cases :=
  cbn [result elapsed trace] in *;
  repeat (match goal with |- _ /\ _ => split end); intros;
  first [ lia | discriminate | congruence | reflexivity
        | eexists; reflexivity | f_equal; lia ].

(** Names the outcome of a blocking call under a timeout: [timed] adds no
    event of its own. *)
Tactic Notation "case_timed" constr(call) "as" ident(t) ident(e) ident(a) :=
  lazymatch call with
  | timed ?limit ?c =>
    let H := fresh "Htrace" in
    let tr := fresh "tr" in
    pose proof (timed_trace limit c) as H;
    destruct call as [t tr [e | a]]; simpl in H; subst tr
  end.

(** ** The decoder on the texts the program writes itself *)

Example decode_braces : decode "{}" = Some empty_object.
Proof. reflexivity. Qed.

Example decode_example_columns :
  decode example_columns
  = Some (JObject [("id", JString "int"); ("name", JString "string")]).
Proof. reflexivity. Qed.

Example decode_example_row :
  decode example_row = Some (JObject [("id", JInt 1); ("name", JString "Alice")]).
Proof. reflexivity. Qed.

Example decode_example_cond : decode example_cond = Some (JObject [("id", JInt 1)]).
Proof. reflexivity. Qed.

Example decode_rows :
  decode alice_rows
  = Some (JArray [JObject [("id", JInt 1); ("name", JString "Alice")]]).
Proof. reflexivity. Qed.

Example decode_scalars :
  decode "null" = Some JNull
  /\ decode " [1, -2.5e3, true] " = Some (JArray [JInt 1; JFloat "-2.5e3"; JBool true])
  /\ decode "not json" = None
  /\ decode EmptyString = None
  /\ decode "[1,]" = None
  /\ decode "{} {}" = None.
Proof. repeat split; reflexivity. Qed.

(** The decoder at the limits of the interpreter: 992 arrays inside one
    another are read and the 993rd is refused; a number of 4300 digits is
    read and one of 4301 digits is refused; in a text with several
    mistakes the first one met decides. *)
Example decode_limits :
  depth <$> decode (times 992 "[" +:+ times 992 "]") = Some 992
  /\ loads (times 993 "[" +:+ times 993 "]") = inl TooDeep
  /\ loads (times 992 "[") = inl Malformed
  /\ loads (times 990 "[" +:+ "1 2") = inl TooDeep
  /\ loads (times 989 "[" +:+ "1 2") = inl Malformed
  /\ loads (times 992 "[" +:+ "NaN") = inl TooDeep
  /\ is_Some (decode (times 4300 "1"))
  /\ loads (times 4301 "1") = inl TooLong
  /\ loads (times 4301 "1" +:+ "x") = inl TooLong
  /\ is_Some (decode (times 4301 "1" +:+ ".5"))
  /\ loads ("x" +:+ times 4301 "1") = inl Malformed
  /\ loads ("[1 " +:+ times 4301 "1") = inl Malformed
  /\ loads (times 4301 "1" +:+ times 2000 "[") = inl TooLong.
Proof. repeat split; vm_compute; eauto. Qed.

(** ** Lemmas on the user interface state *)

Lemma operations_for_drop_db (role : string) :
  In "DROP_DB" (operations_for role) <-> role = "Master".
Proof.
  unfold operations_for.
  destruct (String.eqb_spec role "Master") as [-> | Hne]; simpl.
  - split; [reflexivity | intros _; tauto].
  - split; [| contradiction].
    intros H; repeat (destruct H as [H | H]; [discriminate |]); destruct H.
Qed.

Lemma update_fields_radio_buttons (st : gui) :
  radio_buttons (update_fields st) = radio_buttons st.
Proof.
  destruct st; unfold update_fields; simpl.
  repeat (match goal with |- context [String.eqb ?a ?b] => destruct (String.eqb a b) end);
    reflexivity.
Qed.

(** The handler of the node selection leaves the radio buttons as
    [__init__] created them. *)
Lemma select_node_radio_buttons (role : string) (st st' : gui) :
  select_node role st = Some st' -> radio_buttons st' = radio_buttons st.
Proof.
  unfold select_node, update_node_ip; intros H.
  destruct (config_of _) as [addr |]; simpl in H; [| discriminate].
  injection H as <-.
  rewrite update_fields_radio_buttons. destruct st; reflexivity.
Qed.

(** The handler of the node selection sets the address of the role. *)
Lemma select_node_address (role : string) (st st' : gui) :
  select_node role st = Some st' ->
  node_type st' = role /\ config_of role = Some (node_ip_port st').
Proof.
  unfold select_node, update_node_ip; intros H.
  assert (node_type (set_node_type role st) = role) as Hrole by (destruct st; reflexivity).
  rewrite Hrole in H.
  destruct (config_of role) as [addr |]; simpl in H; [| discriminate].
  injection H as <-. destruct st; unfold update_fields; simpl.
  repeat (match goal with |- context [String.eqb ?a ?b] => destruct (String.eqb a b) end);
    split; reflexivity.
Qed.

(** C1 (the code departs from the claim).  After the user changes the
    selected role from Master to Slave 1, the role is Slave 1, the address
    is the one of Slave 1, and DROP_DB is still among the operations
    offered. *)
Theorem C1_drop_db_offered_after_role_change :
  exists st,
    select_node "Slave 1" __init__ = Some st
    /\ node_type st = "Slave 1"
    /\ node_ip_port st = "192.168.149.137:8001"
    /\ In "DROP_DB" (radio_buttons st).
Proof.
  eexists; split; [reflexivity |].
  split; [reflexivity |]. split; [reflexivity |].
  simpl. tauto.
Qed.

(** C9.  For every operation kind and every role, [update_fields] packs
    exactly the label and the entry of each field that the table of the
    specification requires for the kind, in the order of the table, and
    so presents exactly those fields. *)
Theorem C9_fields_for_kind (k : OperationKind) (role : string) (st : gui) :
  let st' := update_fields (set_node_type role (set_operation (kind_name k) st)) in
  packed st' = flat_map widgets_of (spec_required_fields k)
  /\ presented st' = spec_required_fields k.
Proof.
  destruct st, k; split; reflexivity.
Qed.

(** ** Building the command *)

Lemma py_or_nonempty (a b : string) : a <> EmptyString -> py_or a b = a.
Proof. destruct a; [congruence | reflexivity]. Qed.

Lemma decode_loads (s : string) (v : json) :
  decode s = Some v <-> loads s = inr v.
Proof.
  unfold decode. destruct (loads s) as [f | w]; split; intros H;
    try discriminate H; injection H as <-; reflexivity.
Qed.

(** What [build_op] does, by the outcome of the two calls of the
    decoder: the first failure is raised as it is, and nothing else
    happens. *)
Lemma build_op_result (st : gui) :
  build_op st =
  match loads (py_or (data st) "{}") with
  | inl f => raise (decoder_error f (py_or (data st) "{}"))
  | inr d =>
    match loads (py_or (condition st) "{}") with
    | inl f => raise (decoder_error f (py_or (condition st) "{}"))
    | inr c => mret (Command (operation st) (database st) (table st) d c)
    end
  end.
Proof.
  unfold build_op, json_loads.
  destruct (loads (py_or (data st) "{}")) as [f | d]; [reflexivity |].
  destruct (loads (py_or (condition st) "{}")) as [f | c]; reflexivity.
Qed.

Lemma build_op_run (st : gui) : build_op st = Run 0 [] (result (build_op st)).
Proof.
  rewrite build_op_result.
  destruct (loads (py_or (data st) "{}")) as [f | d]; [reflexivity |].
  destruct (loads (py_or (condition st) "{}")) as [f | c]; reflexivity.
Qed.

Lemma build_op_data_error (st : gui) :
  loads (py_or (data st) "{}") = inl Malformed ->
  build_op st = raise (JSONDecodeError (py_or (data st) "{}")).
Proof. intros H. rewrite build_op_result, H. reflexivity. Qed.

Lemma build_op_ok (st : gui) (d c : json) :
  decode (py_or (data st) "{}") = Some d ->
  decode (py_or (condition st) "{}") = Some c ->
  build_op st = mret (Command (operation st) (database st) (table st) d c).
Proof.
  intros Hd Hc. apply decode_loads in Hd, Hc.
  rewrite build_op_result, Hd, Hc. reflexivity.
Qed.

Lemma build_op_inv (st : gui) (op : command) :
  result (build_op st) = inr op ->
  decode (py_or (data st) "{}") = Some (Data op)
  /\ decode (py_or (condition st) "{}") = Some (Condition op)
  /\ op = Command (operation st) (database st) (table st) (Data op) (Condition op).
Proof.
  rewrite build_op_result. unfold decode.
  destruct (loads (py_or (data st) "{}")) as [f | d]; [discriminate |].
  destruct (loads (py_or (condition st) "{}")) as [f | c]; [discriminate |].
  simpl. intros [= <-]. auto.
Qed.

Lemma build_op_value (st : gui) (op : command) :
  result (build_op st) = inr op -> build_op st = mret op.
Proof. intros H. rewrite build_op_run, H. reflexivity. Qed.

(** The exceptions of the build are those of the decoder. *)
Lemma build_op_error (st : gui) (e : exn) :
  result (build_op st) = inl e ->
  exists f doc, e = decoder_error f doc.
Proof.
  rewrite build_op_result.
  destruct (loads (py_or (data st) "{}")) as [f | d].
  - intros [= <-]. eauto.
  - destruct (loads (py_or (condition st) "{}")) as [f | c]; [| discriminate].
    intros [= <-]. eauto.
Qed.

(** C2 as stated fails: the user types null in the data entry of INSERT
    and the command is built with the null value as its Data. *)
Lemma C2_data_can_be_null :
  build_op typed_null = mret (Command "INSERT" "mydb" "users" JNull empty_object)
  /\ is_object JNull = false.
Proof. split; reflexivity. Qed.

(** C2, amended.  The Data and Condition of every built command are the
    values the decoder gives for the raw texts (for the text of the empty
    mapping when the raw text is empty): any JSON value, a mapping or
    not; they are the empty mapping when the raw text is empty. *)
Theorem C2_built_fields_are_decoded (st : gui) (op : command) :
  result (build_op st) = inr op ->
  decode (py_or (data st) "{}") = Some (Data op)
  /\ decode (py_or (condition st) "{}") = Some (Condition op)
  /\ (data st = EmptyString -> Data op = empty_object)
  /\ (condition st = EmptyString -> Condition op = empty_object).
Proof.
  intros H. destruct (build_op_inv st op H) as (Hd & Hc & _).
  repeat split; try assumption.
  - intros He. rewrite He in Hd. simpl in Hd. rewrite decode_braces in Hd. congruence.
  - intros He. rewrite He in Hc. simpl in Hc. rewrite decode_braces in Hc. congruence.
Qed.

Lemma C2_built_fields_are_decoded_witness :
  decode (py_or (data __init__) "{}") = Some empty_object
  /\ decode (py_or (condition __init__) "{}") = Some empty_object.
Proof.
  pose proof (C2_built_fields_are_decoded __init__
                (Command "CREATE_DB" "mydb" EmptyString empty_object empty_object)
                eq_refl) as (Hd & Hc & _).
  split; assumption.
Defined.

(** ** Showing the answer *)

(** [String.prefix] is the test of [str.startswith]. *)
Lemma prefix_startswith (p s : string) :
  String.prefix p s = true <-> exists tail, s = p +:+ tail.
Proof.
  revert s; induction p as [| a p IH]; intros s.
  - split; [intros _; exists s; reflexivity | intros _; destruct s; reflexivity].
  - destruct s as [| b s]; simpl.
    + split; [discriminate | intros [tail H]; discriminate].
    + destruct (ascii_dec a b) as [-> | Hne].
      * rewrite IH. split; intros [tail H]; exists tail.
        -- rewrite H. reflexivity.
        -- simpl in H. injection H as H. exact H.
      * split; [discriminate | intros [tail H]].
        simpl in H. injection H as H1 H2. congruence.
Qed.

(** The response part for a SEARCH command, by the outcome of the
    decoder: only the error of a text that is no JSON document is
    handled there. *)
Lemma search_response (op : command) (data : string) :
  Type_ op = "SEARCH" ->
  show_response op data =
  match loads data with
  | inr results =>
    Run 0 [ EvAfter ResultDelete;
            EvAfter (ResultInsert (Dumps results));
            EvAfter (StatusConfig (Lit "SEARCH completed") green) ] (inr tt)
  | inl Malformed =>
    Run 0 [ EvAfter ResultDelete;
            EvAfter (ResultInsert (Lit data));
            EvAfter (StatusConfig (Lit "Error: Invalid SEARCH response") red) ]
      (inr tt)
  | inl f => Run 0 [EvAfter ResultDelete] (inl (decoder_error f data))
  end.
Proof.
  intros H. unfold show_response, json_loads. rewrite H. simpl.
  destruct (loads data) as [[] | results]; reflexivity.
Qed.

(** The response part for a command of another type. *)
Lemma other_response (op : command) (data : string) :
  Type_ op <> "SEARCH" ->
  show_response op data =
  Run 0 [ EvAfter ResultDelete;
          EvAfter (ResultInsert (Lit data));
          EvAfter (StatusConfig
                     (if String.prefix "Error" data then Lit "Operation failed"
                      else Lit ("Operation " +:+ Type_ op +:+ " completed"))
                     (if String.prefix "Error" data then red else green)) ] (inr tt).
Proof.
  intros H. unfold show_response.
  destruct (String.eqb_spec (Type_ op) "SEARCH") as [He | _]; [contradiction |].
  destruct (String.prefix "Error" data); reflexivity.
Qed.

(** The response part takes no time and makes no socket operation.  It
    ends with an exception only when the decoder meets one of the limits
    of the interpreter in a SEARCH answer, and then it has scheduled no
    update of the status; otherwise it schedules one. *)
Lemma show_response_shape (op : command) (data : string) :
  elapsed (show_response op data) = 0%N
  /\ List.filter is_network_io (trace (show_response op data)) = []
  /\ match result (show_response op data) with
     | inr _ =>
       length (List.filter is_status_update (trace (show_response op data))) = 1
     | inl e =>
       (e = RecursionError \/ exists detail, e = ValueError detail)
       /\ List.filter is_status_update (trace (show_response op data)) = []
     end.
Proof.
  destruct (String.eqb_spec (Type_ op) "SEARCH") as [He | Hne].
  - rewrite (search_response op data He).
    destruct (loads data) as [[] | results]; cbn; repeat split; eauto.
  - rewrite (other_response op data Hne). repeat split.
Qed.

(** C5 (the code departs from the claim).  A peer answers a SEARCH with
    2000 arrays inside one another, 4000 bytes in all.  The decoder fails
    on the answer at the recursion limit, which the handler of the
    SEARCH answer does not catch: the answer is never shown, and the
    failure handler of the execution reports the recursion error in
    place of an invalid SEARCH response. *)
Theorem C5_deep_answer_is_not_shown :
  String.length deep_rows = 4000
  /\ loads deep_rows = inl TooDeep
  /\ show_response search_users deep_rows
     = Run 0 [EvAfter ResultDelete] (inl RecursionError)
  /\ _execute_operation (answering 1 deep_rows) searching
     = Run 3
         [ EvSocket; EvSetTimeout 10; EvConnect "192.168.149.137" 8000;
           EvSendAll (Command "SEARCH" "mydb" "users" empty_object
                        (JObject [("id", JInt 1)]));
           EvRecv 4096;
           EvAfter ResultDelete;
           EvClose;
           EvAfter (ShowError "Error" (Fmt "Failed to execute operation: " RecursionError));
           EvAfter (StatusConfig (Fmt "Error: " RecursionError) red);
           EvAfter ResultDelete;
           EvAfter (ResultInsert (Fmt "Error: " RecursionError)) ]
         (inr tt).
Proof. repeat split; vm_compute; reflexivity. Qed.

(** C6.  For a command of any other type, the answer is shown as
    received, and the status is the red failure status exactly when the
    answer starts with the text Error; otherwise it is the green status
    that names the completed operation. *)
Theorem C6_other_response (op : command) (data : string) :
  Type_ op <> "SEARCH" ->
  exists message fg,
    show_response op data
    = Run 0 [ EvAfter ResultDelete;
              EvAfter (ResultInsert (Lit data));
              EvAfter (StatusConfig message fg) ] (inr tt)
    /\ (fg = red <-> exists tail, data = "Error" +:+ tail)
    /\ (fg = red -> message = Lit "Operation failed")
    /\ (fg <> red ->
        fg = green
        /\ message = Lit ("Operation " +:+ Type_ op +:+ " completed")).
Proof.
  intros H. unfold show_response.
  destruct (String.eqb_spec (Type_ op) "SEARCH") as [He | _]; [contradiction |].
  pose proof (prefix_startswith "Error" data) as Hp.
  destruct (String.prefix "Error" data).
  - exists (Lit "Operation failed"), red.
    split; [reflexivity |]. split; [| split; [reflexivity | congruence]].
    split; [intros _; apply Hp; reflexivity | reflexivity].
  - exists (Lit ("Operation " +:+ Type_ op +:+ " completed")), green.
    split; [reflexivity |]. split; [| split; [discriminate | auto]].
    split; [discriminate |]. intros Ht. apply Hp in Ht. discriminate.
Qed.

Lemma C6_other_response_witness :
  exists message fg,
    show_response (Command "INSERT" "mydb" "users" empty_object empty_object)
      "Error: table not found"
    = Run 0 [ EvAfter ResultDelete;
              EvAfter (ResultInsert (Lit "Error: table not found"));
              EvAfter (StatusConfig message fg) ] (inr tt)
    /\ fg = red.
Proof.
  destruct (C6_other_response
              (Command "INSERT" "mydb" "users" empty_object empty_object)
              "Error: table not found") as (message & fg & H & Hred & _).
  - discriminate.
  - exists message, fg. split; [exact H |].
    apply Hred. exists ": table not found". reflexivity.
Defined.

(** ** [_execute_operation] on any network *)

Section Execution.

Variable net : network.

(** When the build raises, the handler of the first try block reports
    the error of a text that is no JSON document and returns; any other
    exception leaves [_execute_operation] with nothing scheduled.  No
    socket is created either way. *)
Lemma execute_build_error (st : gui) (e : exn) :
  result (build_op st) = inl e ->
  _execute_operation net st =
  match e with
  | JSONDecodeError _ => Run 0 (invalid_json_report e) (inr tt)
  | _ => Run 0 [] (inl e)
  end.
Proof.
  intros H. unfold _execute_operation. rewrite build_op_run, H.
  destruct e; reflexivity.
Qed.

Lemma execute_invalid_json (st : gui) (doc : string) :
  build_op st = raise (JSONDecodeError doc) ->
  _execute_operation net st = Run 0 (invalid_json_report (JSONDecodeError doc)) (inr tt).
Proof. intros H. unfold _execute_operation. rewrite H. reflexivity. Qed.

(** A non-empty data text that is no JSON document is reported as
    invalid JSON, and no socket operation is made. *)
Lemma malformed_data_is_reported (st : gui) :
  data st <> EmptyString ->
  loads (data st) = inl Malformed ->
  _execute_operation net st
  = Run 0 (invalid_json_report (JSONDecodeError (data st))) (inr tt).
Proof.
  intros Hne Hf. apply execute_invalid_json.
  rewrite <- (py_or_nonempty (data st) "{}" Hne).
  apply build_op_data_error. rewrite (py_or_nonempty _ _ Hne). exact Hf.
Qed.

(** C3 (the code departs from the claim).  The user types a number of
    4301 digits in the data entry.  The text is not empty and the decoder
    fails on it, with the ValueError of the limit of digits, which the
    handler of the first try block does not catch: on every network the
    execution makes no socket operation, but it ends with that exception
    and has scheduled no callback, so no failure is reported. *)
Theorem C3_long_number_is_not_reported :
  data typed_long_number <> EmptyString
  /\ loads (data typed_long_number) = inl TooLong
  /\ result (build_op typed_long_number)
     = inl (ValueError "integer string conversion")
  /\ _execute_operation net typed_long_number
     = Run 0 [] (inl (ValueError "integer string conversion")).
Proof.
  assert (result (build_op typed_long_number)
          = inl (ValueError "integer string conversion")) as H
    by (vm_compute; reflexivity).
  split; [discriminate |]. split; [vm_compute; reflexivity |].
  split; [exact H |]. apply (execute_build_error _ _ H).
Qed.

(** The whole execution once the command is built, the socket is created
    and the address has the form host:port: by the outcome of the three
    blocking calls, of the encoder and of the response part. *)
Lemma execute_connected (st : gui) (op : command) (host ps : string) (p : Z) :
  build_op st = mret op ->
  split ":" (node_ip_port st) = [host; ps] ->
  py_int ps = Some p ->
  net_socket net = None ->
  let c := timed 10 (net_connect net host p) in
  let s := timed 10 (net_sendall net host p op) in
  let v := timed 10 (net_recv net host p op) in
  let before := [EvSocket; EvSetTimeout 10; EvConnect host p] in
  _execute_operation net st =
  match result c with
  | inl e =>
    Run (elapsed c) (before ++ [EvClose] ++ failure_report e)%list (inr tt)
  | inr _ =>
    if serializable op then
      match result s with
      | inl e =>
        Run (elapsed c + elapsed s)
          (before ++ [EvSendAll op; EvClose] ++ failure_report e)%list (inr tt)
      | inr _ =>
        match result v with
        | inl e =>
          Run (elapsed c + elapsed s + elapsed v)
            (before ++ [EvSendAll op; EvRecv 4096; EvClose] ++ failure_report e)%list
            (inr tt)
        | inr data =>
          Run (elapsed c + elapsed s + elapsed v)
            (before ++ [EvSendAll op; EvRecv 4096]
               ++ trace (show_response op data) ++ [EvClose]
               ++ match result (show_response op data) with
                  | inl e => failure_report e
                  | inr _ => []
                  end)%list
            (inr tt)
        end
      end
    else
      Run (elapsed c) (before ++ [EvClose] ++ failure_report RecursionError)%list (inr tt)
  end.
Proof.
  intros Hb Hs Hp Hn. cbv zeta.
  unfold _execute_operation. rewrite Hb.
  unfold exchange, with_socket, unpack_addr, int_of, json_dumps. rewrite Hs, Hn.
  cbn -[py_int timed show_response serializable]. rewrite Hp.
  cbn -[py_int timed show_response serializable].
  case_timed (timed 10 (net_connect net host p)) as tc ec connected;
    [cbn; f_equal; lia |].
  destruct (serializable op); [| cbn; f_equal; lia].
  case_timed (timed 10 (net_sendall net host p op)) as ts es sent;
    [cbn; f_equal; lia |].
  case_timed (timed 10 (net_recv net host p op)) as tv ev answer;
    [cbn; f_equal; lia |].
  destruct (show_response_shape op answer) as (Ht & _ & _).
  cbn -[show_response].
  destruct (show_response op answer) as [t tr [e | []]]; cbn in Ht; subst t;
    cbn; f_equal; try lia.
  rewrite <- List.app_assoc. reflexivity.
Qed.

(** The execution does not read the selected role. *)
Lemma set_node_type_execute (role : string) (st : gui) :
  _execute_operation net (set_node_type role st) = _execute_operation net st.
Proof. destruct st; reflexivity. Qed.

(** C10, amended.  Once the data and condition texts decode, the command
    is built from the operation and the entries whatever the role and
    the operation are, and the execution does not depend on the selected
    role; it connects to the selected address, and once the connection
    is made it sends the command when the encoder can write it; when the
    values of the command are nested up to the recursion limit the
    encoder fails, nothing is sent and the failure is reported; nothing
    is sent either when the connection fails. *)
Theorem C10_no_role_check (st : gui) (d c : json) :
  decode (py_or (data st) "{}") = Some d ->
  decode (py_or (condition st) "{}") = Some c ->
  let op := Command (operation st) (database st) (table st) d c in
  build_op st = mret op
  /\ (forall role,
        _execute_operation net (set_node_type role st) = _execute_operation net st)
  /\ (forall host ps p,
        split ":" (node_ip_port st) = [host; ps] ->
        py_int ps = Some p ->
        net_socket net = None ->
        match result (timed 10 (net_connect net host p)) with
        | inr _ =>
          if serializable op then
            exists rest,
              trace (_execute_operation net st)
              = ([EvSocket; EvSetTimeout 10; EvConnect host p; EvSendAll op] ++ rest)%list
          else
            trace (_execute_operation net st)
            = ([EvSocket; EvSetTimeout 10; EvConnect host p; EvClose]
                 ++ failure_report RecursionError)%list
        | inl e =>
          trace (_execute_operation net st)
          = ([EvSocket; EvSetTimeout 10; EvConnect host p; EvClose]
               ++ failure_report e)%list
        end).
Proof.
  intros Hd Hc op.
  pose proof (build_op_ok st d c Hd Hc) as Hb. fold op in Hb.
  split; [exact Hb |]. split; [intros role; apply set_node_type_execute |].
  intros host ps p Hs Hp Hn.
  rewrite (execute_connected st op host ps p Hb Hs Hp Hn). cbv zeta.
  destruct (result (timed 10 (net_connect net host p))) as [e | []];
    [reflexivity |].
  destruct (serializable op); [| reflexivity].
  destruct (result (timed 10 (net_sendall net host p op))) as [e | []];
    [eexists; reflexivity |].
  destruct (result (timed 10 (net_recv net host p op))) as [e | answer];
    eexists; reflexivity.
Qed.

(** C8, amended.  The execution sets a timeout of ten seconds on its
    socket, and the timeout bounds each of connect, sendall and recv on
    its own: the execution takes at most thirty seconds, and when one of
    the three calls reaches ten seconds the execution closes the socket
    and reports the failure with the timeout error.  The calls of sendall
    and recv are reached when the encoder can write the command; when
    its values are nested up to the recursion limit, the execution ends
    after the connection with the report of the recursion error. *)
Theorem C8_timeout_bounds_each_call (st : gui) (op : command)
        (host ps : string) (p : Z) :
  build_op st = mret op ->
  split ":" (node_ip_port st) = [host; ps] ->
  py_int ps = Some p ->
  net_socket net = None ->
  let r := _execute_operation net st in
  let c := net_connect net host p in
  let s := net_sendall net host p op in
  let v := net_recv net host p op in
  let before := [EvSocket; EvSetTimeout 10; EvConnect host p] in
  (exists rest, trace r = (before ++ rest)%list)
  /\ (elapsed r <= 30000)%N
  /\ ((10000 <= takes c)%N ->
      r = Run 10000 (before ++ [EvClose] ++ failure_report TimeoutError)%list (inr tt))
  /\ ((takes c < 10000)%N -> gives c = inr tt -> (10000 <= takes s)%N ->
      r = if serializable op then
            Run (takes c + 10000)
              (before ++ [EvSendAll op; EvClose] ++ failure_report TimeoutError)%list
              (inr tt)
          else
            Run (takes c)
              (before ++ [EvClose] ++ failure_report RecursionError)%list (inr tt))
  /\ ((takes c < 10000)%N -> gives c = inr tt ->
      (takes s < 10000)%N -> gives s = inr tt -> (10000 <= takes v)%N ->
      r = if serializable op then
            Run (takes c + takes s + 10000)
              (before ++ [EvSendAll op; EvRecv 4096; EvClose]
                 ++ failure_report TimeoutError)%list
              (inr tt)
          else
            Run (takes c)
              (before ++ [EvClose] ++ failure_report RecursionError)%list (inr tt)).
Proof.
  intros Hb Hs Hp Hn. cbv zeta.
  rewrite (execute_connected st op host ps p Hb Hs Hp Hn). cbv zeta.
  pose proof (timed_elapsed 10 (net_connect net host p)) as Bc.
  pose proof (timed_elapsed 10 (net_sendall net host p op)) as Bs.
  pose proof (timed_elapsed 10 (net_recv net host p op)) as Bv.
  unfold timed in *. change (10 * 1000)%N with 10000%N in *.
  destruct (N.leb_spec 10000 (takes (net_connect net host p))) as [Lc | Lc];
    [by_cases |].
  destruct (gives (net_connect net host p)) as [ec | []] eqn:Gc; [by_cases |].
  destruct (serializable op); [| by_cases].
  destruct (N.leb_spec 10000 (takes (net_sendall net host p op))) as [Ls | Ls];
    [by_cases |].
  destruct (gives (net_sendall net host p op)) as [es | []] eqn:Gs; [by_cases |].
  destruct (N.leb_spec 10000 (takes (net_recv net host p op))) as [Lv | Lv];
    [by_cases |].
  destruct (gives (net_recv net host p op)) as [ev | answer] eqn:Gv; by_cases.
Qed.

End Execution.

(** C10 as stated fails: the user types 992 arrays inside one another in
    the data entry.  The text decodes, the connection is made, and the
    encoder fails at the recursion limit: nothing is sent, and the
    failure handler reports the recursion error. *)
Lemma C10_deep_data_is_not_sent :
  depth <$> decode (data typed_deep_data) = Some 992
  /\ _execute_operation (answering 1 "ok") typed_deep_data
     = Run 1
         ([EvSocket; EvSetTimeout 10; EvConnect "192.168.149.137" 8000; EvClose]
            ++ failure_report RecursionError)%list
         (inr tt).
Proof. split; vm_compute; reflexivity. Qed.

Lemma C10_no_role_check_witness :
  node_type drop_on_slave = "Slave 1"
  /\ exists rest,
       trace (_execute_operation (answering 1 "ok") drop_on_slave)
       = ([ EvSocket; EvSetTimeout 10; EvConnect "192.168.149.137" 8001;
            EvSendAll (Command "DROP_DB" "mydb" EmptyString empty_object empty_object) ]
            ++ rest)%list.
Proof.
  split; [reflexivity |].
  destruct (C10_no_role_check (answering 1 "ok") drop_on_slave
              empty_object empty_object eq_refl eq_refl) as (_ & _ & H).
  exact (H "192.168.149.137" "8001" 8001%Z eq_refl eq_refl eq_refl).
Defined.

(** C8 as stated fails: each of the three calls takes six seconds, the
    execution takes eighteen seconds, and it ends with the answer shown
    and the status of a completed operation. *)
Lemma C8_no_single_budget :
  _execute_operation (answering 6000 "ok") __init__
  = Run 18000
      [ EvSocket; EvSetTimeout 10; EvConnect "192.168.149.137" 8000;
        EvSendAll (Command "CREATE_DB" "mydb" EmptyString empty_object empty_object);
        EvRecv 4096;
        EvAfter ResultDelete;
        EvAfter (ResultInsert (Lit "ok"));
        EvAfter (StatusConfig (Lit "Operation CREATE_DB completed") green);
        EvClose ]
      (inr tt).
Proof. reflexivity. Qed.

Lemma C8_timeout_bounds_each_call_witness :
  _execute_operation stalled __init__
  = Run 10000
      ([EvSocket; EvSetTimeout 10; EvConnect "192.168.149.137" 8000]
         ++ [EvClose] ++ failure_report TimeoutError)%list
      (inr tt).
Proof.
  destruct (C8_timeout_bounds_each_call stalled __init__
              (Command "CREATE_DB" "mydb" EmptyString empty_object empty_object)
              "192.168.149.137" "8000" 8000%Z eq_refl eq_refl eq_refl eq_refl)
    as (_ & _ & H & _).
  apply H. vm_compute. discriminate.
Defined.

(** ** [check_node_status] on any network *)

Lemma status_colors_set (node color : string) (st : gui) :
  status_colors (set_status_color node color st)
  = <[node := color]> (status_colors st).
Proof. destruct st; reflexivity. Qed.

Lemma running_set_status_color (node color : string) (st : gui) :
  running (set_status_color node color st) = running st.
Proof. destruct st; reflexivity. Qed.

Lemma running_cleanup (st : gui) : running (cleanup st) = false.
Proof. destruct st; reflexivity. Qed.

Lemma health_of_set (n n' color : string) (st : gui) :
  health_of (set_status_color n color st) n'
  = if String.eqb n n' then color_health color else health_of st n'.
Proof.
  unfold health_of. rewrite status_colors_set.
  destruct (String.eqb_spec n n') as [-> | Hne].
  - rewrite lookup_insert_eq. reflexivity.
  - rewrite lookup_insert_ne by exact Hne. reflexivity.
Qed.

Lemma probes_app (l1 l2 : list event) :
  probes (l1 ++ l2) = (probes l1 ++ probes l2)%list.
Proof. apply List.filter_app. Qed.

(** A computation that ends with a value, followed by another one. *)
Lemma bind_value {A B : Type} (m : run A) (f : A -> run B) (b : B) :
  result (m ≫= f) = inr b ->
  exists a, result m = inr a
            /\ result (f a) = inr b
            /\ trace (m ≫= f) = (trace m ++ trace (f a))%list.
Proof.
  unfold mbind, run_bind. destruct (result m) as [e | a]; simpl; [discriminate |].
  intros H. exists a. auto.
Qed.

(** [registered] is what the code reads out of [node_configs]. *)
Lemma registered_parsed :
  List.map endpoint_of node_configs = List.map Some registered.
Proof. reflexivity. Qed.

Section Monitor.

Variable net : network.

(** One probe of an address of the form host:port: it always ends, and
    the colour it records tells whether the endpoint was reachable. *)
Lemma probe_spec (node addr host ps : string) (p : Z) (st : gui) :
  split ":" addr = [host; ps] ->
  py_int ps = Some p ->
  exists t tr,
    probe net node addr st
    = Run t tr
        (inr (set_status_color node
                (if reachable net host p then green else red) st))
    /\ List.filter is_network_io tr
       = match net_socket net with
         | None => bare_connection host p
         | Some _ => []
         end.
Proof.
  intros Hs Hp. unfold probe, reachable, with_socket, unpack_addr, int_of.
  rewrite Hs. cbn -[py_int timed]. rewrite Hp. cbn -[py_int timed].
  destruct (net_socket net) as [e |]; [do 2 eexists; split; reflexivity |].
  case_timed (timed 2 (net_connect net host p)) as tc ec connected;
    do 2 eexists; split; reflexivity.
Qed.

(** Whatever the address, a probe makes at most one connection attempt
    and leaves the flag [running] as it is. *)
Lemma probe_general (node addr : string) (st : gui) :
  length (probes (trace (probe net node addr st))) <= 1
  /\ forall st', result (probe net node addr st) = inr st' -> running st' = running st.
Proof.
  unfold probe, unpack_addr.
  destruct (split ":" addr) as [| host [| ps [| x l]]];
    try (split; [simpl; lia | discriminate]).
  cbn -[py_int timed with_socket]. unfold with_socket, int_of.
  destruct (net_socket net) as [e |].
  { cbn. split; [lia |]. intros st' [= <-]. apply running_set_status_color. }
  destruct (py_int ps) as [p |].
  - cbn -[timed].
    case_timed (timed 2 (net_connect net host p)) as tc ec connected; cbn;
      (split; [lia |]); intros st' [= <-]; apply running_set_status_color.
  - cbn. split; [lia |]. intros st' [= <-]. apply running_set_status_color.
Qed.

(** The steps of the thread inside the for loop perform [sweep]. *)
Lemma for_loop_sweep (todo : list (string * string)) (st st' : gui) (lg : list event) :
  result (sweep net todo st) = inr st' ->
  exec net (repeat Monitor (length todo)) (System st (InFor todo) lg)
  = System st' (InFor []) (lg ++ trace (sweep net todo st))%list.
Proof.
  revert st lg. induction todo as [| [node addr] rest IH]; intros st lg H.
  - simpl in H. injection H as <-. simpl. rewrite List.app_nil_r. reflexivity.
  - change (sweep net ((node, addr) :: rest) st)
      with (probe net node addr st ≫= sweep net rest) in *.
    destruct (bind_value _ _ _ H) as (st1 & Hp & Hrest & Htrace).
    rewrite Htrace.
    change (exec net (repeat Monitor (length ((node, addr) :: rest)))
              (System st (InFor ((node, addr) :: rest)) lg))
      with (exec net (repeat Monitor (length rest))
              (monitor_step net (System st (InFor ((node, addr) :: rest)) lg))).
    unfold monitor_step. cbn [monitor app log]. rewrite Hp.
    rewrite (IH st1 _ Hrest), List.app_assoc. reflexivity.
Qed.

(** From the test of the flag, when the flag is true, the thread
    performs one sweep over [node_configs]. *)
Lemma monitor_performs_sweep (st st' : gui) (lg : list event) :
  running st = true ->
  result (sweep net node_configs st) = inr st' ->
  exec net [Monitor; Monitor; Monitor; Monitor] (System st AtWhile lg)
  = System st' (InFor []) (lg ++ trace (sweep net node_configs st))%list.
Proof.
  intros Hr Hs.
  change (exec net [Monitor; Monitor; Monitor; Monitor] (System st AtWhile lg))
    with (exec net (repeat Monitor (length node_configs))
            (monitor_step net (System st AtWhile lg))).
  unfold monitor_step. cbn [monitor app log]. rewrite Hr.
  apply for_loop_sweep. exact Hs.
Qed.

(** C7.  One sweep over the registered endpoints always ends; it leaves
    every node Reachable when the socket was created and the connection
    was made within the timeout, and Unreachable on any error; when the
    sockets are created, its socket operations are, for each endpoint in
    turn, a socket, a timeout of two seconds, a connection to the endpoint
    and the release of the socket; and when exactly one of the three
    endpoints accepts, one node is Reachable and two are Unreachable. *)
Theorem C7_sweep_health (st : gui) :
  exists st',
    result (sweep net node_configs st) = inr st'
    /\ (forall node host port,
          In (node, host, port) registered ->
          health_of st' node
          = if reachable net host port then Reachable else Unreachable)
    /\ (net_socket net = None ->
        List.filter is_network_io (trace (sweep net node_configs st))
        = flat_map (fun e => bare_connection (snd (fst e)) (snd e)) registered)
    /\ (length (List.filter (fun e => reachable net (snd (fst e)) (snd e)) registered) = 1 ->
        count_health Reachable st' = 1 /\ count_health Unreachable st' = 2).
Proof.
  destruct (probe_spec "Master" "192.168.149.137:8000" "192.168.149.137" "8000"
              8000%Z st eq_refl eq_refl) as (t1 & tr1 & P1 & F1).
  set (r1 := reachable net "192.168.149.137" 8000%Z) in *.
  set (st1 := set_status_color "Master" (if r1 then green else red) st) in *.
  destruct (probe_spec "Slave 1" "192.168.149.137:8001" "192.168.149.137" "8001"
              8001%Z st1 eq_refl eq_refl) as (t2 & tr2 & P2 & F2).
  set (r2 := reachable net "192.168.149.137" 8001%Z) in *.
  set (st2 := set_status_color "Slave 1" (if r2 then green else red) st1) in *.
  destruct (probe_spec "Slave 2" "192.168.149.137:8002" "192.168.149.137" "8002"
              8002%Z st2 eq_refl eq_refl) as (t3 & tr3 & P3 & F3).
  set (r3 := reachable net "192.168.149.137" 8002%Z) in *.
  set (st3 := set_status_color "Slave 2" (if r3 then green else red) st2) in *.
  assert (sweep net node_configs st
          = Run (t1 + (t2 + (t3 + 0))) (tr1 ++ tr2 ++ tr3 ++ [])%list (inr st3)) as Hsweep.
  { unfold node_configs, sweep. rewrite P1. cbn -[probe].
    rewrite P2. cbn -[probe]. rewrite P3. reflexivity. }
  assert (health_of st3 "Master" = if r1 then Reachable else Unreachable) as H1.
  { unfold st3, st2, st1. rewrite !health_of_set. cbn. destruct r1; reflexivity. }
  assert (health_of st3 "Slave 1" = if r2 then Reachable else Unreachable) as H2.
  { unfold st3, st2. rewrite !health_of_set. cbn. destruct r2; reflexivity. }
  assert (health_of st3 "Slave 2" = if r3 then Reachable else Unreachable) as H3.
  { unfold st3. rewrite !health_of_set. cbn. destruct r3; reflexivity. }
  exists st3. rewrite Hsweep. split; [reflexivity |]. split; [| split].
  - intros node host port [E | [E | [E | []]]]; injection E as <- <- <-; assumption.
  - intros Hn. cbn [trace]. rewrite !List.filter_app, F1, F2, F3, Hn. reflexivity.
  - unfold count_health. cbn [registered List.filter List.map node_configs fst snd].
    fold r1 r2 r3. rewrite H1, H2, H3.
    destruct r1, r2, r3; cbn; intros E; try discriminate E; split; reflexivity.
Qed.

(** One action once [running] is false: the flag stays false, the log
    grows by at most the connection attempt of a pending item, and a step
    of the thread brings it nearer to its end. *)
Lemma step_stopped (s : system) (a : action) :
  running (app s) = false ->
  let s' := step net s a in
  running (app s') = false
  /\ (exists more, log s' = (log s ++ more)%list
                   /\ length (probes more) + pending (monitor s') <= pending (monitor s))
  /\ rank (monitor s')
     <= rank (monitor s) - match a with Monitor => 1 | Cleanup => 0 end.
Proof.
  intros Hr. destruct s as [st m lg]. simpl in Hr. destruct a; cbn -[probe].
  - unfold monitor_step; cbn -[probe].
    destruct m as [| [| [node addr] rest] | |]; cbn -[probe].
    + rewrite Hr. cbn. split; [exact Hr |]. split; [| lia].
      exists []. rewrite List.app_nil_r. split; [reflexivity | simpl; lia].
    + split; [exact Hr |]. split; [| lia].
      eexists. split; [reflexivity | simpl; lia].
    + destruct (probe_general node addr st) as [Hp Hrun].
      destruct (result (probe net node addr st)) as [e | st'] eqn:Hres; cbn -[probe].
      * split; [exact Hr |]. split; [| lia].
        eexists. split; [reflexivity | lia].
      * split; [rewrite (Hrun st' eq_refl); exact Hr |]. split; [| lia].
        eexists. split; [reflexivity | lia].
    + split; [exact Hr |]. split; [| lia].
      exists []. rewrite List.app_nil_r. split; [reflexivity | simpl; lia].
    + split; [exact Hr |]. split; [| lia].
      exists []. rewrite List.app_nil_r. split; [reflexivity | simpl; lia].
  - split; [apply running_cleanup |]. split; [| lia].
    exists []. rewrite List.app_nil_r. split; [reflexivity | simpl; lia].
Qed.

Lemma exec_stopped (acts : list action) (s : system) :
  running (app s) = false ->
  let s' := exec net acts s in
  running (app s') = false
  /\ (exists more, log s' = (log s ++ more)%list
                   /\ length (probes more) + pending (monitor s') <= pending (monitor s))
  /\ rank (monitor s') <= rank (monitor s) - monitor_steps acts.
Proof.
  revert s. induction acts as [| a acts IH]; intros s Hr; cbn zeta.
  - split; [exact Hr |]. split; [| unfold monitor_steps; simpl; lia].
    exists []. rewrite List.app_nil_r. split; [reflexivity | simpl; lia].
  - destruct (step_stopped s a Hr) as (Hr1 & (m1 & Hl1 & Hp1) & Hk1).
    destruct (IH (step net s a) Hr1) as (Hr2 & (m2 & Hl2 & Hp2) & Hk2).
    change (exec net (a :: acts) s) with (exec net acts (step net s a)).
    split; [exact Hr2 |]. split.
    + exists (m1 ++ m2)%list. rewrite Hl2, Hl1, <- List.app_assoc.
      split; [reflexivity |]. rewrite probes_app, List.length_app. lia.
    + assert (monitor_steps (a :: acts)
              = match a with Monitor => 1 | Cleanup => 0 end + monitor_steps acts) as ->
        by (destruct a; reflexivity).
      lia.
Qed.

Lemma probes_network (l : list event) :
  probes l = probes (List.filter is_network_io l).
Proof.
  unfold probes. induction l as [| ev l IH]; [reflexivity |].
  destruct ev; cbn; rewrite ?IH; reflexivity.
Qed.

Lemma endpoint_of_inv (node addr : string) (ep : string * string * Z) :
  endpoint_of (node, addr) = Some ep ->
  exists host ps p,
    split ":" addr = [host; ps] /\ py_int ps = Some p /\ ep = (node, host, p).
Proof.
  unfold endpoint_of. cbn [snd fst].
  destruct (split ":" addr) as [| host [| ps [| x l]]]; try discriminate.
  destruct (py_int ps) as [p |] eqn:Hp; cbn; intros H; [| discriminate H].
  injection H as <-. exists host, ps, p. auto.
Qed.

(** A sweep over items whose addresses read as the endpoints [eps]: it
    ends, it leaves the flag [running] as it is, and when the sockets
    are created it makes one connection attempt to each endpoint, in
    turn. *)
Lemma sweep_spec (todo : list (string * string)) (eps : list (string * string * Z))
      (st : gui) :
  List.map endpoint_of todo = List.map Some eps ->
  exists st',
    result (sweep net todo st) = inr st'
    /\ running st' = running st
    /\ (net_socket net = None ->
        probes (trace (sweep net todo st))
        = List.map (fun e => EvConnect (snd (fst e)) (snd e)) eps).
Proof.
  revert eps st. induction todo as [| [node addr] rest IH]; intros eps st Hm.
  - destruct eps; [| discriminate]. exists st. repeat split.
  - destruct eps as [| ep eps]; [discriminate |].
    injection Hm as Hep Hrest.
    destruct (endpoint_of_inv node addr ep Hep) as (host & ps & p & Hs & Hp & ->).
    destruct (probe_spec node addr host ps p st Hs Hp) as (t & tr & Hprobe & Hio).
    set (st1 := set_status_color node (if reachable net host p then green else red) st)
      in *.
    destruct (IH eps st1 Hrest) as (st' & Hres & Hrun & Hpr).
    change (sweep net ((node, addr) :: rest) st)
      with (probe net node addr st ≫= sweep net rest).
    unfold mbind, run_bind. rewrite Hprobe. cbn [result trace elapsed].
    exists st'. split; [exact Hres |].
    split; [rewrite Hrun; apply running_set_status_color |].
    intros Hn. rewrite probes_app, (Hpr Hn), (probes_network tr), Hio, Hn.
    reflexivity.
Qed.

(** Once [running] is false, [cleanup] changes nothing. *)
Lemma cleanup_stopped (s : system) :
  running (app s) = false -> step net s Cleanup = s.
Proof.
  destruct s as [st m lg]. destruct st. simpl. intros ->. reflexivity.
Qed.

(** Once [running] is false, only the steps of the thread count. *)
Lemma exec_monitor_steps (acts : list action) (s : system) :
  running (app s) = false ->
  exec net acts s = exec net (repeat Monitor (monitor_steps acts)) s.
Proof.
  revert s. induction acts as [| a acts IH]; intros s Hr; [reflexivity |].
  change (exec net (a :: acts) s) with (exec net acts (step net s a)).
  destruct a.
  - change (monitor_steps (Monitor :: acts)) with (S (monitor_steps acts)).
    change (exec net (repeat Monitor (S (monitor_steps acts))) s)
      with (exec net (repeat Monitor (monitor_steps acts)) (step net s Monitor)).
    apply IH. apply (step_stopped s Monitor Hr).
  - rewrite (cleanup_stopped s Hr). apply IH. exact Hr.
Qed.

Lemma exec_returned (n : nat) (st : gui) (lg : list event) :
  exec net (repeat Monitor n) (System st Returned lg) = System st Returned lg.
Proof. induction n as [| n IH]; [reflexivity | exact IH]. Qed.

(** From the test of the flag, once it is false, the thread returns. *)
Lemma exec_at_while_stopped (n : nat) (st : gui) (lg : list event) :
  running st = false ->
  exec net (repeat Monitor (S n)) (System st AtWhile lg) = System st Returned lg.
Proof.
  intros Hr.
  change (exec net (repeat Monitor (S n)) (System st AtWhile lg))
    with (exec net (repeat Monitor n) (monitor_step net (System st AtWhile lg))).
  unfold monitor_step. cbn [monitor app log]. rewrite Hr. apply exec_returned.
Qed.

(** Inside the for loop, once the flag is false, the thread still makes
    the rest of the sweep, sleeps, tests the flag and returns. *)
Lemma exec_in_for_stopped (todo : list (string * string)) (k : nat)
      (st st' : gui) (lg : list event) :
  result (sweep net todo st) = inr st' ->
  running st' = false ->
  exec net (repeat Monitor (length todo + (2 + k))) (System st (InFor todo) lg)
  = System st' Returned (lg ++ trace (sweep net todo st) ++ [EvSleep 5])%list.
Proof.
  intros Hres Hr. rewrite repeat_app. unfold exec. rewrite fold_left_app.
  fold (exec net (repeat Monitor (length todo)) (System st (InFor todo) lg)).
  rewrite (for_loop_sweep todo st st' lg Hres).
  change (fold_left (step net) (repeat Monitor (2 + k))
            (System st' (InFor []) (lg ++ trace (sweep net todo st))%list))
    with (exec net (repeat Monitor (S k))
            (System st' AtWhile ((lg ++ trace (sweep net todo st)) ++ [EvSleep 5])%list)).
  rewrite (exec_at_while_stopped k st' _ Hr), <- List.app_assoc. reflexivity.
Qed.

(** C4, amended.  Once [cleanup] has set the flag to false, the thread
    makes no more connection attempts than the items still pending in
    the sweep it is in, and has ended after as many steps as there are
    pending items plus two (the sleep and the test of the flag).  The
    flag is not read inside the sweep: a thread that is in the for loop
    still probes every remaining endpoint, in turn, then sleeps five
    seconds, and only then returns; a thread that is at the test of the
    flag returns at once, and starts no new sweep. *)
Theorem C4_thread_ends_after_current_sweep (acts : list action) (s : system) :
  running (app s) = false ->
  let s' := exec net acts s in
  running (app s') = false
  /\ (exists more, log s' = (log s ++ more)%list
                   /\ length (probes more) <= pending (monitor s))
  /\ (pending (monitor s) + 2 <= monitor_steps acts -> ended (monitor s') = true)
  /\ (forall todo eps,
        monitor s = InFor todo ->
        List.map endpoint_of todo = List.map Some eps ->
        length todo + 2 <= monitor_steps acts ->
        exists st',
          result (sweep net todo (app s)) = inr st'
          /\ s' = System st' Returned
                    (log s ++ trace (sweep net todo (app s)) ++ [EvSleep 5])%list
          /\ (net_socket net = None ->
              probes (trace (sweep net todo (app s)))
              = List.map (fun e => EvConnect (snd (fst e)) (snd e)) eps))
  /\ (monitor s = AtWhile -> 1 <= monitor_steps acts ->
      s' = System (app s) Returned (log s)).
Proof.
  intros Hr. destruct (exec_stopped acts s Hr) as (Hr' & (more & Hl & Hp) & Hk).
  cbn zeta. split; [exact Hr' |]. split; [| split; [| split]].
  - exists more. split; [exact Hl | lia].
  - intros Hsteps.
    assert (rank (monitor s) <= pending (monitor s) + 2) as Hb
      by (destruct (monitor s); simpl; lia).
    assert (rank (monitor (exec net acts s)) = 0) as H0 by lia.
    destruct (monitor (exec net acts s)); simpl in H0; try reflexivity; lia.
  - intros todo eps Hm He Hsteps.
    destruct (sweep_spec todo eps (app s) He) as (st' & Hres & Hrun & Hpr).
    exists st'. split; [exact Hres |]. split; [| exact Hpr].
    rewrite (exec_monitor_steps acts s Hr).
    replace (monitor_steps acts)
      with (length todo + (2 + (monitor_steps acts - (length todo + 2)))) by lia.
    destruct s as [st m lg]. cbn [app monitor log] in *. subst m.
    apply exec_in_for_stopped; [exact Hres | rewrite Hrun; exact Hr].
  - intros Hm Hsteps. rewrite (exec_monitor_steps acts s Hr).
    destruct (monitor_steps acts) as [| n]; [lia |].
    destruct s as [st m lg]. cbn [app monitor log] in *. subst m.
    apply exec_at_while_stopped. exact Hr.
Qed.

End Monitor.

Lemma C7_sweep_health_witness :
  exists st',
    result (sweep master_only node_configs __init__) = inr st'
    /\ health_of st' "Master" = Reachable
    /\ health_of st' "Slave 1" = Unreachable
    /\ health_of st' "Slave 2" = Unreachable
    /\ count_health Reachable st' = 1
    /\ count_health Unreachable st' = 2.
Proof.
  destruct (C7_sweep_health master_only __init__) as (st' & Hr & Hh & _ & Hc).
  exists st'. split; [exact Hr |].
  split; [exact (Hh "Master" "192.168.149.137" 8000%Z (or_introl eq_refl)) |].
  split; [exact (Hh "Slave 1" "192.168.149.137" 8001%Z (or_intror (or_introl eq_refl))) |].
  split; [exact (Hh "Slave 2" "192.168.149.137" 8002%Z
                   (or_intror (or_intror (or_introl eq_refl)))) |].
  exact (Hc eq_refl).
Defined.

(** C4 as stated fails: [cleanup] has returned while the thread was in a
    sweep, with one connection attempt made; the thread then makes the
    two remaining attempts of the sweep. *)
Lemma C4_probes_after_cleanup :
  running (app stopped_in_sweep) = false
  /\ probes (log stopped_in_sweep) = [EvConnect "192.168.149.137" 8000]
  /\ probes (log (exec refusing [Monitor; Monitor] stopped_in_sweep))
     = [ EvConnect "192.168.149.137" 8000;
         EvConnect "192.168.149.137" 8001;
         EvConnect "192.168.149.137" 8002 ].
Proof. split; [| split]; reflexivity. Qed.

Lemma C4_thread_ends_after_current_sweep_witness :
  exists st',
    exec refusing [Monitor; Monitor; Monitor; Monitor] stopped_in_sweep
    = System st' Returned
        (log stopped_in_sweep
           ++ trace (sweep refusing
                       [ ("Slave 1", "192.168.149.137:8001");
                         ("Slave 2", "192.168.149.137:8002") ]
                       (app stopped_in_sweep))
           ++ [EvSleep 5])%list
    /\ probes (trace (sweep refusing
                        [ ("Slave 1", "192.168.149.137:8001");
                          ("Slave 2", "192.168.149.137:8002") ]
                        (app stopped_in_sweep)))
       = [EvConnect "192.168.149.137" 8001; EvConnect "192.168.149.137" 8002].
Proof.
  destruct (C4_thread_ends_after_current_sweep refusing
              [Monitor; Monitor; Monitor; Monitor] stopped_in_sweep eq_refl)
    as (_ & _ & _ & H & _).
  destruct (H [ ("Slave 1", "192.168.149.137:8001");
                ("Slave 2", "192.168.149.137:8002") ]
              [ ("Slave 1", "192.168.149.137", 8001%Z);
                ("Slave 2", "192.168.149.137", 8002%Z) ]
              eq_refl eq_refl)
    as (st' & _ & Hs & Hp).
  - vm_compute. lia.
  - exists st'. split; [exact Hs | exact (Hp eq_refl)].
Defined.

(** * More properties of the program *)

(** ** [update_fields] and [update_node_ip] *)

Lemma update_fields_keeps (st : gui) :
  node_type (update_fields st) = node_type st
  /\ node_ip_port (update_fields st) = node_ip_port st
  /\ operation (update_fields st) = operation st
  /\ status_colors (update_fields st) = status_colors st
  /\ running (update_fields st) = running st.
Proof.
  destruct st; unfold update_fields; simpl.
  repeat (match goal with |- context [String.eqb ?a ?b] => destruct (String.eqb a b) end);
    repeat split; reflexivity.
Qed.

(** The layout and the entry texts that [update_fields] leaves for an
    operation of kind [k]. *)
Lemma update_fields_kind (k : OperationKind) (st : gui) :
  operation st = kind_name k ->
  packed (update_fields st) = flat_map widgets_of (spec_required_fields k)
  /\ forall f, entry_text f (update_fields st) = example_text k f.
Proof.
  destruct st; simpl; intros ->.
  destruct k; (split; [reflexivity | intros []; reflexivity]).
Qed.

(** An operation is the name of one of the seven kinds or fails the
    seven tests of [update_fields]. *)
Lemma operation_cases (op : string) :
  (exists k, op = kind_name k)
  \/ Forall (fun name => String.eqb op name = false)
       (List.map kind_name
          [CREATE_DB; DROP_DB; CREATE_TABLE; INSERT; UPDATE; DELETE; SEARCH]).
Proof.
  destruct (String.eqb_spec op "CREATE_DB"); [left; exists CREATE_DB; assumption |].
  destruct (String.eqb_spec op "DROP_DB"); [left; exists DROP_DB; assumption |].
  destruct (String.eqb_spec op "CREATE_TABLE"); [left; exists CREATE_TABLE; assumption |].
  destruct (String.eqb_spec op "INSERT"); [left; exists INSERT; assumption |].
  destruct (String.eqb_spec op "UPDATE"); [left; exists UPDATE; assumption |].
  destruct (String.eqb_spec op "DELETE"); [left; exists DELETE; assumption |].
  destruct (String.eqb_spec op "SEARCH"); [left; exists SEARCH; assumption |].
  right. repeat constructor; apply String.eqb_neq; assumption.
Qed.

(** For any other operation [update_fields] packs nothing and leaves the
    entries empty. *)
Lemma update_fields_other (st : gui) :
  Forall (fun name => String.eqb (operation st) name = false)
    (List.map kind_name
       [CREATE_DB; DROP_DB; CREATE_TABLE; INSERT; UPDATE; DELETE; SEARCH]) ->
  update_fields st = clear_entries (forget_all st).
Proof.
  intros H. simpl in H.
  repeat (match goal with H : Forall _ (_ :: _) |- _ => inversion_clear H end).
  destruct st; unfold update_fields; simpl in *.
  repeat (match goal with H : String.eqb _ _ = false |- _ => rewrite H; clear H end).
  reflexivity.
Qed.

(** X1.  [update_fields] forgets what the entries held and what was
    packed: the texts the user typed and the former layout have no effect
    on its result, and running it a second time changes nothing. *)
Theorem update_fields_forgets (st : gui) :
  (forall f s, update_fields (set_entry f s st) = update_fields st)
  /\ (forall ws, update_fields (set_packed ws st) = update_fields st)
  /\ update_fields (update_fields st) = update_fields st.
Proof.
  split; [| split].
  - intros f s. destruct st, f; reflexivity.
  - intros ws. destruct st; reflexivity.
  - destruct (operation_cases (operation st)) as [[k Hk] | Hother].
    + destruct st; simpl in Hk; subst; destruct k; reflexivity.
    + rewrite (update_fields_other st Hother).
      rewrite update_fields_other; destruct st; [reflexivity | exact Hother].
Qed.

(** X2.  Whatever the operation, the texts that [update_fields] leaves in
    the entries decode: a command is built from them, of the type of the
    operation, and its Data and Condition are mappings. *)
Theorem update_fields_builds (st : gui) :
  exists op,
    build_op (update_fields st) = mret op
    /\ Type_ op = operation st
    /\ is_object (Data op) = true
    /\ is_object (Condition op) = true.
Proof.
  destruct (operation_cases (operation st)) as [[k Hk] | Hother].
  - destruct st; simpl in Hk; subst.
    destruct k; eexists; (split; [reflexivity |]); repeat split; reflexivity.
  - rewrite (update_fields_other st Hother).
    destruct st; eexists; (split; [reflexivity |]); repeat split; reflexivity.
Qed.

Lemma config_of_values (role : string) :
  match config_of role with
  | Some addr => In role node_values /\ In (role, addr) node_configs
  | None => ~ In role node_values
  end.
Proof.
  unfold config_of, node_configs, node_values. cbn -[String.eqb].
  destruct (String.eqb_spec "Master" role) as [<- | H1]; [cbn; tauto |].
  destruct (String.eqb_spec "Slave 1" role) as [<- | H2]; [cbn; tauto |].
  destruct (String.eqb_spec "Slave 2" role) as [<- | H3]; [cbn; tauto |].
  cbn. tauto.
Qed.

(** X3.  Picking a node succeeds exactly for the three configured roles
    (any other raises the KeyError of the lookup); it then sets the role
    and its configured address, keeps the operation, the health colours
    and the flag, and resets the layout and the entries as
    [update_fields] does, so that what the user had typed is lost. *)
Theorem select_node_effect (role : string) (st : gui) :
  match select_node role st with
  | Some st' =>
    In role node_values
    /\ node_type st' = role
    /\ In (role, node_ip_port st') node_configs
    /\ operation st' = operation st
    /\ (forall f, entry_text f st' = entry_text f (update_fields st))
    /\ packed st' = packed (update_fields st)
    /\ status_colors st' = status_colors st
    /\ running st' = running st
  | None => ~ In role node_values
  end.
Proof.
  pose proof (config_of_values role) as Hc.
  unfold select_node, update_node_ip.
  assert (node_type (set_node_type role st) = role) as -> by (destruct st; reflexivity).
  destruct (config_of role) as [addr |]; simpl; [| exact Hc].
  destruct Hc as [Hin Hcfg].
  set (st1 := set_node_ip_port addr (set_node_type role st)).
  destruct (update_fields_keeps st1) as (K1 & K2 & K3 & K4 & K5).
  assert (update_fields st1
          = set_node_ip_port addr (set_node_type role (update_fields st))) as Hcomm.
  { destruct (operation_cases (operation st)) as [[k Hk] | Hother].
    - unfold st1. destruct st; simpl in Hk; subst; destruct k; reflexivity.
    - rewrite (update_fields_other st Hother).
      rewrite update_fields_other; unfold st1; destruct st; [reflexivity | exact Hother]. }
  split; [exact Hin |].
  split; [rewrite K1; unfold st1; destruct st; reflexivity |].
  split; [rewrite K2; unfold st1; destruct st; exact Hcfg |].
  split; [rewrite K3; unfold st1; destruct st; reflexivity |].
  split; [intros f; rewrite Hcomm; destruct (update_fields st), f; reflexivity |].
  split; [rewrite Hcomm; destruct (update_fields st); reflexivity |].
  split; [rewrite K4; unfold st1; destruct st; reflexivity |].
  rewrite K5; unfold st1; destruct st; reflexivity.
Qed.

(** ** What the gestures of the user preserve *)

Lemma example_text_unrequired (k : OperationKind) (f : field) :
  ~ In f (spec_required_fields k) -> example_text k f = EmptyString.
Proof.
  destruct k, f; intros H; try reflexivity; exfalso; apply H; simpl; tauto.
Qed.

Lemma tidy_presented (st : gui) (k : OperationKind) :
  packed st = flat_map widgets_of (spec_required_fields k) ->
  presented st = spec_required_fields k.
Proof. unfold presented. intros ->. destruct k; reflexivity. Qed.

Lemma tidy_update_fields (st : gui) (k : OperationKind) :
  config_of (node_type st) = Some (node_ip_port st) ->
  radio_buttons st = operations_for "Master" ->
  operation st = kind_name k ->
  tidy (update_fields st).
Proof.
  intros Hc Hr Hk.
  destruct (update_fields_keeps st) as (K1 & K2 & K3 & _ & _).
  destruct (update_fields_kind k st Hk) as [Hp He].
  split; [rewrite K1, K2; exact Hc |].
  split; [rewrite update_fields_radio_buttons; exact Hr |].
  exists k. split; [rewrite K3; exact Hk |]. split; [exact Hp |].
  intros f Hf. rewrite He. apply example_text_unrequired. exact Hf.
Qed.

Lemma tidy_init : tidy __init__.
Proof.
  split; [reflexivity |]. split; [reflexivity |].
  exists CREATE_DB. split; [reflexivity |]. split; [reflexivity |].
  intros f Hf. destruct f; try reflexivity. exfalso. apply Hf. simpl. tauto.
Qed.

Lemma tidy_step (st st' : gui) (g : gesture) :
  tidy st -> gesture_step st g = Some st' -> tidy st'.
Proof.
  intros (Hc & Hr & k & Hk & Hp & He) Hg. destruct g as [role | op | f s]; simpl in Hg.
  - case_bool_decide; [| discriminate].
    unfold select_node, update_node_ip in Hg.
    assert (node_type (set_node_type role st) = role) as Hrole by (destruct st; reflexivity).
    rewrite Hrole in Hg.
    destruct (config_of role) as [addr |] eqn:Hcfg; simpl in Hg; [| discriminate].
    injection Hg as <-.
    apply (tidy_update_fields _ k); destruct st; simpl in *; assumption.
  - case_bool_decide as Hin; [| discriminate]. injection Hg as <-.
    rewrite Hr in Hin. unfold operations_for in Hin. simpl in Hin.
    assert (exists k', op = kind_name k') as [k' Hk'].
    { repeat (apply elem_of_cons in Hin as [-> | Hin]);
        [ exists CREATE_DB | exists CREATE_TABLE | exists INSERT | exists UPDATE
        | exists DELETE | exists SEARCH | exists DROP_DB | ];
        try reflexivity.
      apply elem_of_nil in Hin. destruct Hin. }
    apply (tidy_update_fields _ k'); destruct st; simpl in *; assumption.
  - case_bool_decide as Hin; [| discriminate]. injection Hg as <-.
    rewrite (tidy_presented st k Hp) in Hin. apply list_elem_of_In in Hin.
    split; [destruct st, f; exact Hc |].
    split; [destruct st, f; exact Hr |].
    exists k. split; [destruct st, f; exact Hk |].
    split; [destruct st, f; exact Hp |].
    intros f' Hf'. specialize (He f' Hf').
    assert (f' <> f) as Hne by (intros ->; contradiction).
    destruct st, f, f'; simpl in *; congruence.
Qed.

Lemma tidy_gestures (gs : list gesture) (st st' : gui) :
  tidy st -> gestures gs st = Some st' -> tidy st'.
Proof.
  revert st. induction gs as [| g gs IH]; intros st Ht H; simpl in H.
  - injection H as <-. exact Ht.
  - destruct (gesture_step st g) as [st1 |] eqn:Hg; simpl in H; [| discriminate].
    apply (IH st1); [apply (tidy_step st st1 g Ht Hg) | exact H].
Qed.

(** The address of a tidy state reads as the host and the port of the
    registered endpoint of the selected node. *)
Lemma tidy_address (st : gui) :
  tidy st ->
  exists host ps port,
    In (node_type st, host, port) registered
    /\ In (node_type st, node_ip_port st) node_configs
    /\ split ":" (node_ip_port st) = [host; ps]
    /\ py_int ps = Some port.
Proof.
  intros (Hc & _).
  pose proof (config_of_values (node_type st)) as Hv. rewrite Hc in Hv.
  destruct Hv as [_ Hin]. unfold node_configs in Hin. simpl in Hin.
  destruct Hin as [E | [E | [E | []]]]; injection E as E1 E2;
    rewrite <- E1, <- E2;
    [ exists "192.168.149.137", "8000", 8000%Z
    | exists "192.168.149.137", "8001", 8001%Z
    | exists "192.168.149.137", "8002", 8002%Z ];
    (split; [simpl; tauto |]); (split; [simpl; tauto |]); split; reflexivity.
Qed.

(** X4.  Whatever the user has done since the window opened, the address
    is the one configured for the selected node, which is one of the three
    registered endpoints, and it reads as a host and a port. *)
Theorem address_follows_node (gs : list gesture) (st : gui) :
  gestures gs __init__ = Some st ->
  exists host ps port,
    In (node_type st, host, port) registered
    /\ In (node_type st, node_ip_port st) node_configs
    /\ split ":" (node_ip_port st) = [host; ps]
    /\ py_int ps = Some port.
Proof.
  intros H. apply tidy_address. exact (tidy_gestures gs _ st tidy_init H).
Qed.

Lemma address_follows_node_witness :
  exists host ps port,
    In ("Slave 1", host, port) registered
    /\ split ":" (node_ip_port drop_on_slave) = [host; ps]
    /\ py_int ps = Some port.
Proof.
  destruct (address_follows_node [PickOperation "DROP_DB"; PickNode "Slave 1"]
              drop_on_slave eq_refl) as (host & ps & port & H1 & _ & H2 & H3).
  exists host, ps, port. auto.
Defined.

(** X5.  Whatever the user has done, a field that the chosen operation
    does not present goes empty into the command that is built: the table
    is the empty text, the Data and the Condition are the empty
    mapping. *)
Theorem unpresented_fields_are_empty (gs : list gesture) (st : gui) (op : command) :
  gestures gs __init__ = Some st ->
  result (build_op st) = inr op ->
  exists k,
    Type_ op = kind_name k
    /\ presented st = spec_required_fields k
    /\ (~ In table_field (spec_required_fields k) -> Table op = EmptyString)
    /\ (~ In data_field (spec_required_fields k) -> Data op = empty_object)
    /\ (~ In condition_field (spec_required_fields k) -> Condition op = empty_object).
Proof.
  intros H Hb.
  destruct (tidy_gestures gs _ st tidy_init H) as (_ & _ & k & Hk & Hp & He).
  destruct (build_op_inv st op Hb) as (Hd & Hc & Hop).
  exists k. rewrite Hop. simpl.
  split; [exact Hk |]. split; [apply tidy_presented; exact Hp |].
  split; [intros Hf; apply (He table_field Hf) |].
  split; intros Hf.
  - pose proof (He data_field Hf) as E. simpl in E. rewrite E in Hd.
    simpl in Hd. rewrite decode_braces in Hd. congruence.
  - pose proof (He condition_field Hf) as E. simpl in E. rewrite E in Hc.
    simpl in Hc. rewrite decode_braces in Hc. congruence.
Qed.

Lemma unpresented_fields_are_empty_witness :
  exists k,
    kind_name k = "DROP_DB"
    /\ presented drop_on_slave = spec_required_fields k.
Proof.
  destruct (unpresented_fields_are_empty
              [PickOperation "DROP_DB"; PickNode "Slave 1"] drop_on_slave
              (Command "DROP_DB" "mydb" EmptyString empty_object empty_object)
              eq_refl eq_refl) as (k & Hk & Hp & _).
  exists k. split; [symmetry; exact Hk | exact Hp].
Defined.

(** ** Every path of [_execute_operation] *)

Lemma failure_report_events (e : exn) :
  List.filter is_network_io (failure_report e) = []
  /\ length (List.filter is_status_update (failure_report e)) = 1.
Proof. split; reflexivity. Qed.

Section Paths.

Variable net : network.

Lemma execute_no_socket (st : gui) (op : command) (e : exn) :
  build_op st = mret op ->
  net_socket net = Some e ->
  _execute_operation net st = Run 0 (failure_report e) (inr tt).
Proof.
  intros Hb Hn. unfold _execute_operation. rewrite Hb.
  unfold with_socket. rewrite Hn. reflexivity.
Qed.

Lemma execute_bad_address (st : gui) (op : command) :
  build_op st = mret op ->
  net_socket net = None ->
  length (split ":" (node_ip_port st)) <> 2 ->
  _execute_operation net st
  = Run 0 ([EvSocket; EvClose] ++ failure_report (ValueError "unpack"))%list (inr tt).
Proof.
  intros Hb Hn Hs. unfold _execute_operation. rewrite Hb.
  unfold with_socket, exchange, unpack_addr. rewrite Hn.
  destruct (split ":" (node_ip_port st)) as [| a [| b [| c l]]];
    try reflexivity.
  simpl in Hs. congruence.
Qed.

Lemma execute_bad_port (st : gui) (op : command) (host ps : string) :
  build_op st = mret op ->
  net_socket net = None ->
  split ":" (node_ip_port st) = [host; ps] ->
  py_int ps = None ->
  _execute_operation net st
  = Run 0 ([EvSocket; EvSetTimeout 10; EvClose] ++ failure_report (ValueError "int"))%list
      (inr tt).
Proof.
  intros Hb Hn Hs Hp. unfold _execute_operation. rewrite Hb.
  unfold with_socket, exchange, unpack_addr, int_of. rewrite Hn, Hs.
  cbn -[py_int]. rewrite Hp. reflexivity.
Qed.

(** Every path of an execution.  Its socket operations are a part of
    the protocol followed by the release of the socket.  When the build
    meets a limit of the interpreter the exception leaves the thread and
    nothing is scheduled; on every other path the execution ends without
    an exception and schedules one update of the status line. *)
Lemma execute_paths (st : gui) :
  (List.filter is_network_io (trace (_execute_operation net st)) = []
   \/ exists n host port op,
        1 <= n
        /\ List.filter is_network_io (trace (_execute_operation net st))
           = (firstn n (protocol host port op) ++ [EvClose])%list)
  /\ match unhandled st with
     | Some e =>
       (e = RecursionError \/ exists detail, e = ValueError detail)
       /\ _execute_operation net st = Run 0 [] (inl e)
     | None =>
       result (_execute_operation net st) = inr tt
       /\ length (List.filter is_status_update (trace (_execute_operation net st))) = 1
     end.
Proof.
  unfold unhandled.
  destruct (result (build_op st)) as [e | op] eqn:Hres.
  { rewrite (execute_build_error net st e Hres).
    destruct (build_op_error st e Hres) as (f & doc & ->).
    destruct f; cbn; (split; [left; reflexivity |]); eauto. }
  pose proof (build_op_value st op Hres) as Hb.
  destruct (net_socket net) as [e |] eqn:Hn.
  { rewrite (execute_no_socket st op e Hb Hn).
    split; [left; reflexivity | split; reflexivity]. }
  destruct (split ":" (node_ip_port st)) as [| host [| ps [| x l]]] eqn:Hs;
    try (rewrite (execute_bad_address st op Hb Hn) by (rewrite Hs; simpl; lia);
         split; [| split; reflexivity];
         right; exists 1, EmptyString, 0%Z, op; split; [lia | reflexivity]).
  destruct (py_int ps) as [p |] eqn:Hp.
  2:{ rewrite (execute_bad_port st op host ps Hb Hn Hs Hp).
      split; [| split; reflexivity].
      right. exists 2, EmptyString, 0%Z, op. split; [lia | reflexivity]. }
  rewrite (execute_connected net st op host ps p Hb Hs Hp Hn). cbv zeta.
  destruct (result (timed 10 (net_connect net host p))) as [e | []].
  { split; [| split; reflexivity].
    right. exists 3, host, p, op. split; [lia | reflexivity]. }
  destruct (serializable op).
  2:{ split; [| split; reflexivity].
      right. exists 3, host, p, op. split; [lia | reflexivity]. }
  destruct (result (timed 10 (net_sendall net host p op))) as [e | []].
  { split; [| split; reflexivity].
    right. exists 4, host, p, op. split; [lia | reflexivity]. }
  destruct (result (timed 10 (net_recv net host p op))) as [e | answer].
  { split; [| split; reflexivity].
    right. exists 5, host, p, op. split; [lia | reflexivity]. }
  destruct (show_response_shape op answer) as (_ & Hio & Hst).
  cbn [trace result]. split.
  - right. exists 5, host, p, op. split; [lia |].
    rewrite !List.filter_app, Hio.
    destruct (result (show_response op answer)); reflexivity.
  - split; [reflexivity |].
    rewrite !List.filter_app, !List.length_app.
    destruct (result (show_response op answer)) as [e | []].
    + destruct Hst as [_ ->]. reflexivity.
    + rewrite Hst. reflexivity.
Qed.

(** X6.  An execution ends with an exception only when the decoder meets
    a limit of the interpreter in the data or the condition text (the
    recursion limit, the limit of digits of an integer): that exception
    then leaves the thread with nothing scheduled.  Whatever else the
    texts, the address and the network do, the error is caught and the
    thread returns. *)
Theorem execute_raises_only_at_limits (st : gui) :
  match unhandled st with
  | Some e =>
    (e = RecursionError \/ exists detail, e = ValueError detail)
    /\ _execute_operation net st = Run 0 [] (inl e)
  | None => result (_execute_operation net st) = inr tt
  end.
Proof.
  destruct (execute_paths st) as [_ H].
  destruct (unhandled st); [exact H | apply H].
Qed.

(** X7.  The socket operations of an execution are none at all, or a
    non-empty initial part of: socket, timeout of ten seconds, connect,
    sendall of the command, recv of 4096 bytes; followed by the release
    of the socket.  So at most one socket is created, it is always
    released, nothing is sent before the connection, and at most one
    answer is read. *)
Theorem execute_socket_protocol (st : gui) :
  List.filter is_network_io (trace (_execute_operation net st)) = []
  \/ exists n host port op,
       1 <= n
       /\ List.filter is_network_io (trace (_execute_operation net st))
          = (firstn n (protocol host port op) ++ [EvClose])%list.
Proof. apply execute_paths. Qed.

(** X8.  [execute] shows the status Processing... and the thread it
    starts schedules exactly one update of the status line, except when
    the decoder meets a limit of the interpreter in the data or the
    condition text: then no update is scheduled and the status stays
    Processing... *)
Theorem execute_status_updates (st : gui) :
  fst (execute net st) = StatusConfig (Lit "Processing...") orange
  /\ length (List.filter is_status_update (trace (snd (execute net st))))
     = match unhandled st with None => 1 | Some _ => 0 end.
Proof.
  split; [reflexivity |]. cbn [execute snd].
  destruct (execute_paths st) as [_ H].
  destruct (unhandled st) as [e |]; [| apply H].
  destruct H as [_ ->]. reflexivity.
Qed.

(** X9.  An error before the connection is reported by the failure
    handler and no connection is attempted: when the socket cannot be
    created nothing else happens; when the address is not made of two
    parts around one colon, or when its port is no integer, the socket
    is released first. *)
Theorem execute_errors_before_connect (st : gui) (op : command) :
  build_op st = mret op ->
  (forall e, net_socket net = Some e ->
             _execute_operation net st = Run 0 (failure_report e) (inr tt))
  /\ (net_socket net = None ->
      length (split ":" (node_ip_port st)) <> 2 ->
      _execute_operation net st
      = Run 0 ([EvSocket; EvClose] ++ failure_report (ValueError "unpack"))%list (inr tt))
  /\ (forall host ps,
        net_socket net = None ->
        split ":" (node_ip_port st) = [host; ps] ->
        py_int ps = None ->
        _execute_operation net st
        = Run 0 ([EvSocket; EvSetTimeout 10; EvClose]
                   ++ failure_report (ValueError "int"))%list (inr tt)).
Proof.
  intros Hb. split; [| split].
  - intros e Hn. apply (execute_no_socket st op e Hb Hn).
  - intros Hn Hs. apply (execute_bad_address st op Hb Hn Hs).
  - intros host ps Hn Hs Hp. apply (execute_bad_port st op host ps Hb Hn Hs Hp).
Qed.

(** X10.  Whatever the user has done, an execution whose texts decode
    and whose socket is created connects to the registered endpoint of
    the selected node, under the timeout of ten seconds. *)
Theorem execute_targets_selected_node (gs : list gesture) (st : gui) (op : command) :
  gestures gs __init__ = Some st ->
  build_op st = mret op ->
  net_socket net = None ->
  exists host port rest,
    In (node_type st, host, port) registered
    /\ trace (_execute_operation net st)
       = ([EvSocket; EvSetTimeout 10; EvConnect host port] ++ rest)%list.
Proof.
  intros Hg Hb Hn.
  destruct (tidy_address st (tidy_gestures gs _ st tidy_init Hg))
    as (host & ps & port & Hreg & _ & Hs & Hp).
  exists host, port.
  rewrite (execute_connected net st op host ps port Hb Hs Hp Hn). cbv zeta.
  destruct (result (timed 10 (net_connect net host port))) as [e | []];
    [eexists; split; [exact Hreg | reflexivity] |].
  destruct (serializable op); [| eexists; split; [exact Hreg | reflexivity]].
  destruct (result (timed 10 (net_sendall net host port op))) as [e | []];
    [eexists; split; [exact Hreg | reflexivity] |].
  destruct (result (timed 10 (net_recv net host port op))) as [e | answer];
    eexists; (split; [exact Hreg | reflexivity]).
Qed.

End Paths.

(** The limits of the interpreter are met by texts the user can type: a
    number of 4301 digits, and 993 arrays inside one another. *)
Example unhandled_limits :
  unhandled typed_long_number = Some (ValueError "integer string conversion")
  /\ unhandled (set_data (times 993 "[") typed_garbage) = Some RecursionError
  /\ unhandled typed_garbage = None
  /\ unhandled typed_deep_data = None.
Proof. repeat split; vm_compute; reflexivity. Qed.

(** ** Texts: blanks, colons and digits *)

Lemma scan_blanks (s : string) : all_ws s = true -> scan Between s = [].
Proof.
  induction s as [| c s IH]; simpl; [reflexivity |].
  intros H. apply andb_prop in H as [Hc Hs].
  unfold scan_between. rewrite Hc. simpl. apply (IH Hs).
Qed.

Lemma loads_blanks (s : string) : all_ws s = true -> loads s = inl Malformed.
Proof. intros H. unfold loads. rewrite (scan_blanks s H). reflexivity. Qed.

(** X11.  Only the empty text stands for the empty mapping: a data text
    made of blanks alone (spaces, tabs, line ends) does not decode, so
    the execution reports invalid JSON and performs no socket
    operation. *)
Theorem blank_data_is_invalid (net : network) (st : gui) :
  data st <> EmptyString ->
  all_ws (data st) = true ->
  _execute_operation net st
  = Run 0 (invalid_json_report (JSONDecodeError (data st))) (inr tt).
Proof.
  intros Hne Hws. apply malformed_data_is_reported; [exact Hne |].
  apply loads_blanks. exact Hws.
Qed.

Lemma blank_data_is_invalid_witness :
  _execute_operation refusing (set_data " " (select_operation "INSERT" __init__))
  = Run 0 (invalid_json_report (JSONDecodeError " ")) (inr tt).
Proof.
  apply (blank_data_is_invalid refusing
           (set_data " " (select_operation "INSERT" __init__)));
    [discriminate | reflexivity].
Defined.

Lemma split_length (sep : ascii) (s : string) :
  length (split sep s) = S (count_char sep s).
Proof.
  induction s as [| c s IH]; simpl; [reflexivity |].
  destruct (Ascii.eqb c sep); simpl; [rewrite IH; reflexivity |].
  destruct (split sep s) as [| w ws]; simpl in *; [discriminate | exact IH].
Qed.

Lemma split_one (sep : ascii) (s : string) :
  count_char sep s = 0 -> split sep s = [s].
Proof.
  induction s as [| c s IH]; simpl; [reflexivity |].
  destruct (Ascii.eqb c sep); simpl; [discriminate |].
  intros H. rewrite (IH H). reflexivity.
Qed.

Lemma split_app (sep : ascii) (a b : string) :
  count_char sep a = 0 ->
  split sep (a +:+ String sep b) = a :: split sep b.
Proof.
  induction a as [| c a IH]; simpl.
  - rewrite Ascii.eqb_refl. reflexivity.
  - destruct (Ascii.eqb c sep); simpl; [discriminate |].
    intros H. rewrite (IH H). reflexivity.
Qed.

Lemma split_one_inv (sep : ascii) (s b : string) :
  split sep s = [b] -> s = b /\ count_char sep b = 0.
Proof.
  intros H. pose proof (split_length sep s) as L. rewrite H in L. simpl in L.
  assert (count_char sep s = 0) as Hc by lia.
  rewrite (split_one sep s Hc) in H. injection H as <-. auto.
Qed.

Lemma split_two_inv (sep : ascii) (s a b : string) :
  split sep s = [a; b] ->
  s = a +:+ String sep b /\ count_char sep a = 0 /\ count_char sep b = 0.
Proof.
  revert a. induction s as [| c s IH]; intros a; simpl; [discriminate |].
  destruct (Ascii.eqb_spec c sep) as [-> | Hne].
  - intros [= <- H]. destruct (split_one_inv sep s b H) as [-> Hb]. auto.
  - destruct (split sep s) as [| w ws] eqn:Hs; [discriminate |].
    intros [= <- ->]. destruct (IH w eq_refl) as (-> & Ha & Hb).
    simpl. destruct (Ascii.eqb_spec c sep); [contradiction |]. auto.
Qed.

(** X12.  The address is read as host and port exactly when it has one
    colon: the unpacking gives the texts before and after the colon, and
    an address with no colon or with several (an IPv6 address) raises
    the ValueError. *)
Theorem unpack_addr_one_colon (addr : string) :
  (forall host port,
     unpack_addr addr = mret (host, port)
     <-> addr = host +:+ ":" +:+ port
         /\ count_char ":" host = 0 /\ count_char ":" port = 0)
  /\ (count_char ":" addr <> 1 -> unpack_addr addr = raise (ValueError "unpack")).
Proof.
  split.
  - intros host port. unfold unpack_addr. split.
    + destruct (split ":" addr) as [| a [| b [| c l]]] eqn:Hs; try discriminate.
      intros [= <- <-]. apply (split_two_inv _ _ _ _ Hs).
    + intros (-> & Hh & Hp).
      change (host +:+ ":" +:+ port) with (host +:+ String ":" port).
      rewrite (split_app _ _ _ Hh), (split_one _ _ Hp). reflexivity.
  - intros Hc. unfold unpack_addr.
    pose proof (split_length ":" addr) as L.
    destruct (split ":" addr) as [| a [| b [| c l]]]; try reflexivity.
    simpl in L. lia.
Qed.

Lemma int_digits_value (ds : string) (acc : Z) (seen : bool) :
  all_digits ds = true ->
  ds <> EmptyString \/ seen = true ->
  int_digits acc seen ds = Some (digits_value acc ds).
Proof.
  revert acc seen. induction ds as [| c ds IH]; intros acc seen Hall Hne; simpl.
  - destruct Hne as [Hne | ->]; [congruence | reflexivity].
  - simpl in Hall. apply andb_prop in Hall as [Hc Hall]. rewrite Hc.
    apply IH; [exact Hall | right; reflexivity].
Qed.

Lemma digits_value_nonneg (ds : string) (acc : Z) :
  (0 <= acc)%Z -> (0 <= digits_value acc ds)%Z.
Proof.
  revert acc. induction ds as [| c ds IH]; intros acc H; simpl; [exact H |].
  apply IH. lia.
Qed.

Lemma digit_code (c : ascii) : is_digit c = true -> (48 <= code c <= 57)%N.
Proof.
  unfold is_digit, in_range. rewrite andb_true_iff, !N.leb_le. auto.
Qed.

(** A run of ASCII digits is its own reading as code points. *)
Lemma digits_points (s : string) :
  all_digits s = true ->
  exists cps,
    utf8_points s = Some cps /\ string_of_chars (List.map int_char cps) = s.
Proof.
  induction s as [| c s IH]; simpl; [exists []; auto |].
  intros H. apply andb_prop in H as [Hc Hs].
  destruct (IH Hs) as (cps & Hu & Hm).
  apply digit_code in Hc.
  exists (code c :: cps). rewrite Hu.
  assert ((code c <? 128)%N = true) as -> by (apply N.ltb_lt; lia).
  split; [reflexivity |]. simpl. rewrite Hm. unfold int_char.
  assert ((code c <? 127)%N = true) as -> by (apply N.ltb_lt; lia).
  unfold chr, code. rewrite ascii_N_embedding. reflexivity.
Qed.

Lemma count_digits_all (s : string) :
  all_digits s = true -> count_digits s = String.length s.
Proof.
  induction s as [| c s IH]; simpl; [reflexivity |].
  intros H. apply andb_prop in H as [-> Hs]. rewrite (IH Hs). reflexivity.
Qed.

(** X13.  A port written as a non-empty run of at most 4300 decimal
    digits is read as the number it writes, which is not negative;
    together with a host that has no colon, the item of the
    configuration reads as that host and that port. *)
Theorem decimal_port_is_read (node host ds : string) :
  count_char ":" host = 0 ->
  ds <> EmptyString ->
  all_digits ds = true ->
  String.length ds <= int_max_str_digits ->
  int_of ds = mret (digits_value 0 ds)
  /\ (0 <= digits_value 0 ds)%Z
  /\ endpoint_of (node, host +:+ ":" +:+ ds) = Some (node, host, digits_value 0 ds).
Proof.
  intros Hh Hne Hd Hlen.
  assert (py_int ds = Some (digits_value 0 ds)) as Hint.
  { unfold py_int. destruct (digits_points ds Hd) as (cps & -> & Hm).
    cbn [mbind option_bind]. rewrite Hm. unfold int_ascii.
    rewrite (count_digits_all ds Hd).
    assert (Nat.ltb int_max_str_digits (String.length ds) = false) as ->
      by (apply Nat.ltb_ge; exact Hlen).
    destruct ds as [| c ds]; [congruence |].
    pose proof Hd as Hd'. simpl in Hd'. apply andb_prop in Hd' as [Hc _].
    pose proof (digit_code c Hc) as Hr.
    assert (is_blank c = false) as Hb.
    { unfold is_blank, in_range.
      apply orb_false_iff. split; [| apply N.eqb_neq; lia].
      apply andb_false_iff. right. apply N.leb_gt. lia. }
    assert ((code c =? 45)%N = false /\ (code c =? 43)%N = false) as [H45 H43]
      by (split; apply N.eqb_neq; lia).
    simpl lstrip. rewrite Hb, H45, H43.
    unfold int_unsigned. rewrite Hc.
    apply int_digits_value; [exact Hd | left; discriminate]. }
  assert (count_char ":" ds = 0) as Hcolon.
  { clear -Hd. induction ds as [| c ds IH]; [reflexivity |].
    simpl in *. apply andb_prop in Hd as [Hc Hd].
    destruct (Ascii.eqb_spec c ":") as [-> | _]; [discriminate | apply IH; exact Hd]. }
  split; [unfold int_of; rewrite Hint; reflexivity |].
  split; [apply digits_value_nonneg; lia |].
  unfold endpoint_of. cbn [snd fst].
  change (host +:+ ":" +:+ ds) with (host +:+ String ":" ds).
  rewrite (split_app _ _ _ Hh), (split_one _ _ Hcolon), Hint. reflexivity.
Qed.

(** [int] on texts that are not plain runs of digits: blanks around the
    number and single underscores inside it are accepted, as are the
    digits and the spaces of Unicode (here the fullwidth digits 8000 and
    a no-break space); a separator of the ASCII range 28 to 31 is not a
    blank. *)
Example int_readings :
  py_int " 8_000 " = Some 8000%Z
  /\ py_int "-8000" = Some (-8000)%Z
  /\ py_int (utf8 65304 +:+ utf8 65296 +:+ utf8 65296 +:+ utf8 65296) = Some 8000%Z
  /\ py_int (utf8 160 +:+ "8000") = Some 8000%Z
  /\ py_int (String (chr 28) "8000") = None
  /\ py_int "8__000" = None
  /\ py_int "80 00" = None
  /\ py_int "0x1f40" = None
  /\ py_int EmptyString = None.
Proof. repeat split; reflexivity. Qed.

(** Beyond 4300 digits the port is refused. *)
Example long_port_is_refused :
  all_digits (times 4301 "1") = true
  /\ int_of (times 4301 "1") = raise (ValueError "int").
Proof. split; vm_compute; reflexivity. Qed.

Lemma decimal_port_is_read_witness :
  endpoint_of ("Master", "192.168.149.137" +:+ ":" +:+ "8000")
  = Some ("Master", "192.168.149.137", 8000%Z).
Proof.
  apply (decimal_port_is_read "Master" "192.168.149.137" "8000");
    [reflexivity | discriminate | reflexivity |].
  unfold int_max_str_digits. simpl. lia.
Defined.

(** ** More on [check_node_status] *)

Lemma form_set_status_color (node color : string) (st : gui) :
  form (set_status_color node color st) = form st.
Proof. destruct st; reflexivity. Qed.

Lemma form_cleanup (st : gui) : form (cleanup st) = form st.
Proof. destruct st; reflexivity. Qed.

(** The execution reads the address, the operation and the four entries
    and nothing else. *)
Lemma execute_reads_form (net : network) (st1 st2 : gui) :
  form st1 = form st2 -> _execute_operation net st1 = _execute_operation net st2.
Proof.
  destruct st1, st2; unfold form; simpl. intros [= -> -> -> -> -> ->]. reflexivity.
Qed.

Lemma well_formed_inv (node addr : string) :
  well_formed (node, addr) = true ->
  exists host ps p, split ":" addr = [host; ps] /\ py_int ps = Some p.
Proof.
  unfold well_formed, endpoint_of. cbn [snd fst].
  destruct (split ":" addr) as [| host [| ps [| x l]]];
    try (intros H; discriminate H).
  destruct (py_int ps) as [p |] eqn:Hp; cbn; [| intros H; discriminate H].
  intros _. exists host, ps, p. auto.
Qed.

Lemma node_configs_well_formed :
  Forall (fun item => well_formed item = true) node_configs.
Proof. repeat constructor. Qed.

(** Gives the time, the events and the colour of a probe that ends. *)
Ltac probe_ends :=
  refine (ex_intro _ _ (ex_intro _ _ (ex_intro _ _ (conj _ (conj _ eq_refl)))));
  [ first [left; reflexivity | right; reflexivity] | cbn in *; lia ].

Section MonitorPaths.

Variable net : network.

(** The two ways a probe ends: the unpacking of the address raises, or
    the probe records green or red for its node within two seconds. *)
Lemma probe_cases (node addr : string) (st : gui) :
  (length (split ":" addr) <> 2
   /\ probe net node addr st = raise (ValueError "unpack"))
  \/ (exists t tr color,
        (color = green \/ color = red)
        /\ (t <= 2000)%N
        /\ probe net node addr st = Run t tr (inr (set_status_color node color st))).
Proof.
  unfold probe, unpack_addr.
  destruct (split ":" addr) as [| host [| ps [| x l]]];
    try (left; split; [simpl; lia | reflexivity]).
  right. cbn -[py_int timed with_socket]. unfold with_socket, int_of.
  destruct (net_socket net) as [e |]; [probe_ends |].
  destruct (py_int ps) as [p |]; [| probe_ends].
  cbn -[timed].
  pose proof (timed_elapsed 2 (net_connect net host p)) as Ht.
  case_timed (timed 2 (net_connect net host p)) as tc ec connected;
    cbn in *; probe_ends.
Qed.

(** X14.  An address that is not made of two parts around one colon ends
    the monitor thread: the unpacking stands before the try block, so the
    ValueError leaves [check_node_status]; from then on the thread probes
    nothing and the colours stay as they were, though the flag is still
    true. *)
Theorem malformed_address_ends_monitor
        (node addr : string) (rest : list (string * string)) (st : gui)
        (lg : list event) (n : nat) :
  length (split ":" addr) <> 2 ->
  exec net (repeat Monitor (S n)) (System st (InFor ((node, addr) :: rest)) lg)
  = System st (Died (ValueError "unpack")) lg.
Proof.
  intros H.
  change (exec net (repeat Monitor (S n)) (System st (InFor ((node, addr) :: rest)) lg))
    with (exec net (repeat Monitor n)
            (monitor_step net (System st (InFor ((node, addr) :: rest)) lg))).
  unfold monitor_step. cbn [monitor app log].
  destruct (probe_cases node addr st) as [[_ ->] | (t & tr & c & _ & _ & Hp)].
  - cbn. rewrite List.app_nil_r.
    induction n as [| n IH]; [reflexivity | exact IH].
  - exfalso. unfold probe, unpack_addr in Hp.
    destruct (split ":" addr) as [| host [| ps [| x l]]]; try discriminate.
    simpl in H. congruence.
Qed.

(** X15.  A port that is no integer is an error like any other of the
    probe: the socket is released without a connection attempt and the
    node is recorded red. *)
Theorem probe_bad_port (node addr host ps : string) (st : gui) :
  net_socket net = None ->
  split ":" addr = [host; ps] ->
  py_int ps = None ->
  probe net node addr st
  = Run 0 [ EvSocket; EvSetTimeout 2; EvClose;
            EvAfter (LabelConfig node "Disconnected" red) ]
      (inr (set_status_color node red st)).
Proof.
  intros Hn Hs Hp. unfold probe, unpack_addr, with_socket, int_of.
  rewrite Hs, Hn. cbn -[py_int]. rewrite Hp. reflexivity.
Qed.

(** X16.  A probe that ends writes one thing: the colour of its own node,
    green or red.  The colours of the other nodes, the flag, the
    selection and the entries are as before. *)
Theorem probe_writes_one_colour (node addr : string) (st st' : gui) :
  result (probe net node addr st) = inr st' ->
  (health_of st' node = Reachable \/ health_of st' node = Unreachable)
  /\ (forall other, other <> node ->
        status_colors st' !! other = status_colors st !! other)
  /\ form st' = form st
  /\ running st' = running st
  /\ node_type st' = node_type st
  /\ radio_buttons st' = radio_buttons st
  /\ packed st' = packed st.
Proof.
  destruct (probe_cases node addr st) as [[_ ->] | (t & tr & c & Hc & _ & ->)];
    [discriminate |].
  intros [= <-]. split.
  - rewrite health_of_set, String.eqb_refl.
    destruct Hc as [-> | ->]; [left | right]; reflexivity.
  - split.
    + intros other Hne. rewrite status_colors_set.
      apply lookup_insert_ne. congruence.
    + destruct st; repeat split; reflexivity.
Qed.

(** One action keeps what the execution reads, and keeps known a health
    that is known. *)
Lemma step_keeps (s : system) (a : action) :
  form (app (step net s a)) = form (app s)
  /\ forall node, health_of (app s) node <> Unknown ->
                  health_of (app (step net s a)) node <> Unknown.
Proof.
  destruct s as [st m lg]. destruct a; cbn -[probe].
  - unfold monitor_step; cbn -[probe].
    destruct m as [| [| [node addr] rest] | |]; cbn -[probe];
      try (split; [reflexivity | auto]).
    + destruct (running st); cbn; split; (reflexivity || auto).
    + destruct (probe_cases node addr st) as [[_ ->] | (t & tr & c & Hc & _ & ->)];
        cbn; [split; [reflexivity | auto] |].
      split; [apply form_set_status_color |].
      intros n Hn. rewrite health_of_set.
      destruct (String.eqb node n); [| exact Hn].
      destruct Hc as [-> | ->]; discriminate.
  - split; [apply form_cleanup |]. intros node. destruct st; auto.
Qed.

Lemma exec_keeps (acts : list action) (s : system) :
  form (app (exec net acts s)) = form (app s)
  /\ forall node, health_of (app s) node <> Unknown ->
                  health_of (app (exec net acts s)) node <> Unknown.
Proof.
  revert s. induction acts as [| a acts IH]; intros s; [split; auto |].
  change (exec net (a :: acts) s) with (exec net acts (step net s a)).
  destruct (step_keeps s a) as [F1 H1]. destruct (IH (step net s a)) as [F2 H2].
  split; [congruence | auto].
Qed.

(** X17.  A health that a probe has recorded never returns to unknown:
    whatever the two threads do afterwards, the node stays Reachable or
    Unreachable. *)
Theorem health_stays_known (acts : list action) (s : system) (node : string) :
  health_of (app s) node <> Unknown ->
  health_of (app (exec net acts s)) node <> Unknown.
Proof. apply exec_keeps. Qed.

End MonitorPaths.

(** X18.  The monitor and the execution do not interfere: whatever the
    monitor thread and [cleanup] have done in between, the execution of
    a command is the one it would have been before. *)
Theorem execution_ignores_monitor (net net' : network) (acts : list action) (s : system) :
  _execute_operation net (app (exec net' acts s)) = _execute_operation net (app s).
Proof. apply execute_reads_form. apply exec_keeps. Qed.

(** ** The loop of the monitor *)

Lemma exec_app (net : network) (l1 l2 : list action) (s : system) :
  exec net (l1 ++ l2) s = exec net l2 (exec net l1 s).
Proof. apply List.fold_left_app. Qed.

Section MonitorLoop.

Variable net : network.

Lemma sweep_ends (nodes : list (string * string)) (st : gui) :
  Forall (fun item => well_formed item = true) nodes ->
  exists st', result (sweep net nodes st) = inr st' /\ running st' = running st.
Proof.
  revert st. induction nodes as [| [node addr] rest IH]; intros st H.
  - exists st. split; reflexivity.
  - inversion_clear H as [| ? ? Hw Hrest].
    destruct (well_formed_inv node addr Hw) as (host & ps & p & Hs & Hp).
    destruct (probe_spec net node addr host ps p st Hs Hp) as (t & tr & Hprobe & _).
    destruct (IH (set_status_color node (if reachable net host p then green else red) st)
                Hrest) as (st' & Hres & Hrun).
    exists st'. cbn [sweep]. rewrite Hprobe. cbn -[sweep]. split; [exact Hres |].
    rewrite Hrun. apply running_set_status_color.
Qed.

Lemma monitor_step_in_loop (s : system) : in_loop s -> in_loop (monitor_step net s).
Proof.
  destruct s as [st m lg]. intros [Hr Hm]. simpl in Hr, Hm.
  unfold monitor_step; cbn [monitor app log].
  destruct m as [| [| [node addr] rest] | |]; try contradiction.
  - rewrite Hr. split; [exact Hr | apply node_configs_well_formed].
  - split; [exact Hr | exact I].
  - inversion_clear Hm as [| ? ? Hw Hrest].
    destruct (well_formed_inv node addr Hw) as (host & ps & p & Hs & Hp).
    destruct (probe_spec net node addr host ps p st Hs Hp) as (t & tr & -> & _).
    cbn [result]. unfold in_loop. cbn [app monitor].
    split; [rewrite running_set_status_color; exact Hr | exact Hrest].
Qed.

(** X19.  As long as [cleanup] has not run, the monitor thread never
    ends: no failed probe, timeout or refused connection takes it out
    of its loop. *)
Theorem monitor_runs_until_cleanup (n : nat) :
  ended (monitor (exec net (repeat Monitor n) started)) = false
  /\ running (app (exec net (repeat Monitor n) started)) = true.
Proof.
  assert (forall s, in_loop s -> in_loop (exec net (repeat Monitor n) s)) as H.
  { induction n as [| k IH]; intros s Hs; [exact Hs |].
    change (exec net (repeat Monitor (S k)) s)
      with (exec net (repeat Monitor k) (monitor_step net s)).
    apply IH. apply monitor_step_in_loop. exact Hs. }
  destruct (H started) as [Hr Hm]; [split; [reflexivity | exact I] |].
  split; [| exact Hr].
  destruct (monitor (exec net (repeat Monitor n) started)); try reflexivity;
    contradiction.
Qed.

(** X20.  One turn of the loop: from the test of the flag, when the flag
    is true, five steps of the thread probe the three nodes in the order
    of the configuration, sleep five seconds and come back to the test,
    with the flag still true. *)
Theorem monitor_cycle (st : gui) (lg : list event) :
  running st = true ->
  exists st',
    result (sweep net node_configs st) = inr st'
    /\ running st' = true
    /\ exec net (repeat Monitor 5) (System st AtWhile lg)
       = System st' AtWhile (lg ++ trace (sweep net node_configs st) ++ [EvSleep 5])%list.
Proof.
  intros Hr.
  destruct (sweep_ends node_configs st node_configs_well_formed) as (st' & Hs & Hrun).
  exists st'. split; [exact Hs |]. split; [congruence |].
  change (repeat Monitor 5) with ([Monitor; Monitor; Monitor; Monitor] ++ [Monitor])%list.
  rewrite exec_app, (monitor_performs_sweep net st st' lg Hr Hs).
  cbn. rewrite <- List.app_assoc. reflexivity.
Qed.

(** X21.  A sweep blocks for at most two seconds for each node: six
    seconds for the three nodes of the configuration, whatever the
    network does. *)
Theorem sweep_time_bound (nodes : list (string * string)) (st : gui) :
  (elapsed (sweep net nodes st) <= 2000 * N.of_nat (length nodes))%N.
Proof.
  revert st. induction nodes as [| [node addr] rest IH]; intros st.
  - simpl. lia.
  - cbn [sweep].
    destruct (probe_cases net node addr st) as [[_ ->] | (t & tr & c & _ & Ht & ->)].
    + cbn. lia.
    + specialize (IH (set_status_color node c st)).
      cbn -[sweep N.mul N.of_nat]. cbn [length]. lia.
Qed.

End MonitorLoop.

(** ** [ToolTip] *)

Lemma destroy_unknown (id : nat) (ws : list ToolTip.toplevel) :
  Forall (fun w => ToolTip.win_id w < id) ws ->
  List.filter (fun w => negb (Nat.eqb (ToolTip.win_id w) id)) ws = ws.
Proof.
  induction ws as [| w ws IH]; intros H; [reflexivity |].
  inversion_clear H as [| ? ? Hw Hws]. simpl.
  destruct (Nat.eqb_spec (ToolTip.win_id w) id) as [E | _]; [lia |].
  simpl. rewrite (IH Hws). reflexivity.
Qed.

(** X22.  The pointer enters and leaves: [hide_tooltip] destroys the
    window that [show_tooltip] created, which stood twenty pixels right
    of and below the corner of the widget with the text of the tip; the
    display is as before and the tip holds no window. *)
Theorem hide_after_show (t : ToolTip.tip) (d : ToolTip.display) :
  ToolTip.named d ->
  let shown := ToolTip.show_tooltip t d in
  ToolTip.windows (snd shown)
  = (ToolTip.windows d
       ++ [ToolTip.Toplevel (ToolTip.created d)
             (fst (ToolTip.widget t) + 20) (snd (ToolTip.widget t) + 20)
             (ToolTip.text t)])%list
  /\ ToolTip.windows (snd (ToolTip.hide_tooltip (fst shown) (snd shown)))
     = ToolTip.windows d
  /\ ToolTip.tooltip (fst (ToolTip.hide_tooltip (fst shown) (snd shown))) = None.
Proof.
  intros Hn. cbv zeta. split; [reflexivity |]. split; [| reflexivity].
  unfold ToolTip.hide_tooltip, ToolTip.show_tooltip, ToolTip.destroy. cbn.
  rewrite List.filter_app, (destroy_unknown _ _ Hn). cbn.
  rewrite Nat.eqb_refl. cbn. apply List.app_nil_r.
Qed.

Lemma hide_after_show_witness :
  ToolTip.windows
    (snd (ToolTip.handle_all [ToolTip.Enter; ToolTip.Leave]
            (ToolTip.__init__ (100, 200)%Z "Name of the table", ToolTip.Display [] 0)))
  = [].
Proof.
  apply (hide_after_show (ToolTip.__init__ (100, 200)%Z "Name of the table")
           (ToolTip.Display [] 0)).
  constructor.
Defined.

(** A window that the tip does not hold is out of its reach. *)
Lemma handle_keeps_orphan (w : ToolTip.toplevel) (s : ToolTip.tip * ToolTip.display)
      (ev : ToolTip.pointer) :
  ToolTip.named (snd s) ->
  In w (ToolTip.windows (snd s)) ->
  ToolTip.tooltip (fst s) <> Some (ToolTip.win_id w) ->
  ToolTip.named (snd (ToolTip.handle s ev))
  /\ In w (ToolTip.windows (snd (ToolTip.handle s ev)))
  /\ ToolTip.tooltip (fst (ToolTip.handle s ev)) <> Some (ToolTip.win_id w).
Proof.
  destruct s as [t d]. cbn [fst snd]. intros Hn Hin Hne.
  assert (ToolTip.win_id w < ToolTip.created d) as Hlt.
  { unfold ToolTip.named in Hn. rewrite List.Forall_forall in Hn. apply (Hn w Hin). }
  destruct ev; cbn [ToolTip.handle fst snd].
  - unfold ToolTip.show_tooltip, ToolTip.named. cbn. split; [| split].
    + apply List.Forall_app. split.
      * eapply List.Forall_impl; [| exact Hn]. cbn. intros; lia.
      * repeat constructor.
    + apply List.in_or_app. left. exact Hin.
    + intros [= E]. lia.
  - unfold ToolTip.hide_tooltip.
    destruct (ToolTip.tooltip t) as [id |] eqn:Ht; cbn;
      [| split; [exact Hn | split; [exact Hin | congruence]]].
    split; [| split; [| discriminate]].
    + unfold ToolTip.named, ToolTip.destroy. cbn.
      unfold ToolTip.named in Hn. rewrite List.Forall_forall in *.
      intros x Hx. apply List.filter_In in Hx as [Hx _]. apply (Hn x Hx).
    + apply List.filter_In. split; [exact Hin |].
      destruct (Nat.eqb_spec (ToolTip.win_id w) id) as [E | _]; [| reflexivity].
      congruence.
Qed.

(** X23.  The tip remembers one window only.  A window of the display
    that the tip does not hold stays on the display whatever follows:
    when the pointer enters twice with no leave in between, the first
    window is never destroyed. *)
Theorem orphan_window_stays (evs : list ToolTip.pointer) (w : ToolTip.toplevel)
        (t : ToolTip.tip) (d : ToolTip.display) :
  ToolTip.named d ->
  In w (ToolTip.windows d) ->
  ToolTip.tooltip t <> Some (ToolTip.win_id w) ->
  In w (ToolTip.windows (snd (ToolTip.handle_all evs (t, d)))).
Proof.
  intros Hn Hin Hne.
  assert (forall s,
            ToolTip.named (snd s) -> In w (ToolTip.windows (snd s)) ->
            ToolTip.tooltip (fst s) <> Some (ToolTip.win_id w) ->
            In w (ToolTip.windows (snd (ToolTip.handle_all evs s)))) as H.
  { induction evs as [| ev evs IH]; intros s H1 H2 H3; [exact H2 |].
    destruct (handle_keeps_orphan w s ev H1 H2 H3) as (K1 & K2 & K3).
    apply (IH (ToolTip.handle s ev) K1 K2 K3). }
  apply (H (t, d)); assumption.
Qed.

Lemma orphan_window_stays_witness :
  In (ToolTip.Toplevel 0 120 220 "Name of the table")
    (ToolTip.windows
       (snd (ToolTip.handle_all [ToolTip.Leave; ToolTip.Enter; ToolTip.Leave]
               (ToolTip.handle_all [ToolTip.Enter; ToolTip.Enter]
                  (ToolTip.__init__ (100, 200)%Z "Name of the table",
                   ToolTip.Display [] 0))))).
Proof.
  apply (orphan_window_stays [ToolTip.Leave; ToolTip.Enter; ToolTip.Leave]
           (ToolTip.Toplevel 0 120 220 "Name of the table")
           (ToolTip.Tip (100, 200)%Z "Name of the table" (Some 1))
           (ToolTip.Display
              [ ToolTip.Toplevel 0 120 220 "Name of the table";
                ToolTip.Toplevel 1 120 220 "Name of the table" ] 2)).
  - repeat constructor.
  - left. reflexivity.
  - discriminate.
Defined.

(** ** The properties above on examples *)

Lemma execute_errors_before_connect_witness :
  _execute_operation no_descriptors __init__
  = Run 0 (failure_report (OSError "Too many open files")) (inr tt).
Proof.
  destruct (execute_errors_before_connect no_descriptors __init__
              (Command "CREATE_DB" "mydb" EmptyString empty_object empty_object)
              eq_refl) as (H & _).
  apply H. reflexivity.
Defined.

Lemma execute_targets_selected_node_witness :
  exists host port rest,
    In ("Slave 1", host, port) registered
    /\ trace (_execute_operation refusing drop_on_slave)
       = ([EvSocket; EvSetTimeout 10; EvConnect host port] ++ rest)%list.
Proof.
  exact (execute_targets_selected_node refusing
           [PickOperation "DROP_DB"; PickNode "Slave 1"] drop_on_slave
           (Command "DROP_DB" "mydb" EmptyString empty_object empty_object)
           eq_refl eq_refl eq_refl).
Defined.

Lemma malformed_address_ends_monitor_witness :
  exec refusing (repeat Monitor 3)
    (System __init__ (InFor [("Node", "::1:8000")]) [])
  = System __init__ (Died (ValueError "unpack")) [].
Proof.
  apply (malformed_address_ends_monitor refusing "Node" "::1:8000" [] __init__ [] 2).
  vm_compute. lia.
Defined.

Lemma probe_bad_port_witness :
  probe refusing "Node" "localhost:http" __init__
  = Run 0 [ EvSocket; EvSetTimeout 2; EvClose;
            EvAfter (LabelConfig "Node" "Disconnected" red) ]
      (inr (set_status_color "Node" red __init__)).
Proof.
  apply (probe_bad_port refusing "Node" "localhost:http" "localhost" "http" __init__);
    reflexivity.
Defined.

Lemma probe_writes_one_colour_witness :
  health_of (set_status_color "Master" red __init__) "Master" = Reachable
  \/ health_of (set_status_color "Master" red __init__) "Master" = Unreachable.
Proof.
  destruct (probe_writes_one_colour refusing "Master" "192.168.149.137:8000" __init__
              (set_status_color "Master" red __init__) eq_refl) as (H & _).
  exact H.
Defined.

Lemma health_stays_known_witness :
  health_of (app (exec refusing [Cleanup; Monitor; Monitor] swept_once)) "Master"
  <> Unknown.
Proof.
  apply (health_stays_known refusing [Cleanup; Monitor; Monitor] swept_once "Master").
  vm_compute. discriminate.
Defined.

Lemma monitor_cycle_witness :
  exists st',
    exec refusing (repeat Monitor 5) started
    = System st' AtWhile
        ([] ++ trace (sweep refusing node_configs __init__) ++ [EvSleep 5])%list.
Proof.
  destruct (monitor_cycle refusing __init__ [] eq_refl) as (st' & _ & _ & H).
  exists st'. exact H.
Defined.

Lemma unpack_addr_one_colon_witness :
  unpack_addr "::1:8000" = raise (ValueError "unpack")
  /\ unpack_addr "192.168.149.137:8000" = mret ("192.168.149.137", "8000").
Proof.
  destruct (unpack_addr_one_colon "::1:8000") as [_ Hbad].
  destruct (unpack_addr_one_colon "192.168.149.137:8000") as [Hgood _].
  split.
  - apply Hbad. vm_compute. lia.
  - apply Hgood. repeat split; reflexivity.
Defined.
